(** * Energy forecast dashboard and image-label demo: a shallow embedding

    Two Streamlit scripts are modelled:

    - [app.py] (module [App]): per-hour forecast rows for the selected
      appliances, the derived columns [Energy_kWh], [CO2_kg] and [Cost_$],
      the per-appliance and per-day aggregates, and the recommendations
      (best / worst day, top contributors);
    - [Streamlit demo/main.py] (module [Demo]): the class index of an image
      classifier looked up in a label file.

    Numbers are IEEE binary64 values ([PrimFloat.float]), the arithmetic of
    Python's [float] and of numpy's [float64].  Python exceptions are values
    of [Py.result]. *)

From Stdlib Require Import String Ascii.
From Stdlib Require Import ZArith NArith List Bool Lia Floats Permutation Sorted.
Import ListNotations.

#[local] Set Warnings "-inexact-float".
#[local] Open Scope Z_scope.

(** ** Python values: exceptions and text *)

Module Py.

Inductive exn : Type :=
| ValueError
| IndexError.

Inductive result (A : Type) : Type :=
| Ok (a : A)
| Raise (e : exn).
Arguments Ok {A} a.
Arguments Raise {A} e.

Definition bind {A B} (c : result A) (k : A -> result B) : result B :=
  match c with
  | Ok a => k a
  | Raise e => Raise e
  end.

(** A [str] is a sequence of Unicode code points. *)
Definition str : Type := list N.

Definition of_string (s : string) : str :=
  map N_of_ascii (list_ascii_of_string s).

Definition str_compare : str -> str -> comparison := list_compare N.compare.

Lemma str_compare_eq (a b : str) : str_compare a b = Eq <-> a = b.
Proof. apply list_compare_refl. intros x y. apply N.compare_eq_iff. Qed.

Definition str_eqb (a b : str) : bool :=
  match str_compare a b with Eq => true | _ => false end.

Lemma str_eqb_eq (a b : str) : str_eqb a b = true <-> a = b.
Proof.
  unfold str_eqb. rewrite <- str_compare_eq.
  destruct (str_compare a b); split; congruence.
Qed.

End Py.

Notation "x <- c ;; k" := (Py.bind c (fun x => k))
  (at level 61, c at next level, right associativity).

(** ** The order of binary64 values

    [x <=? y] is false as soon as one side is NaN; on the other values it is a
    total preorder.  Both facts are derived from the specification of the
    primitive comparison over [spec_float]. *)

Module F64.

#[local] Open Scope float_scope.

Lemma is_nan_spec (x : float) :
  is_nan x = match Prim2SF x with S754_nan => true | _ => false end.
Proof.
  unfold is_nan. rewrite eqb_spec. unfold SFeqb.
  destruct (Prim2SF x) as [s| s | | s m e]; simpl; try reflexivity.
  - destruct s; reflexivity.
  - destruct s; rewrite Z.compare_refl;
      change (Pos.compare_cont Eq m m) with (Pos.compare m m);
      rewrite Pos.compare_refl; reflexivity.
Qed.

Lemma SFcompare_finite_pos m1 e1 m2 e2 :
  SFcompare (S754_finite false m1 e1) (S754_finite false m2 e2)
  = Some (match Z.compare e1 e2 with
          | Lt => Lt | Gt => Gt | Eq => Pos.compare m1 m2 end).
Proof. reflexivity. Qed.

Lemma SFcompare_finite_neg m1 e1 m2 e2 :
  SFcompare (S754_finite true m1 e1) (S754_finite true m2 e2)
  = Some (match Z.compare e1 e2 with
          | Lt => Gt | Gt => Lt | Eq => CompOpp (Pos.compare m1 m2) end).
Proof. reflexivity. Qed.

Ltac cmp_cases :=
  repeat match goal with
    | |- context [Z.compare ?a ?b] =>
        destruct (Z.compare_spec a b); subst
    | H : context [Z.compare ?a ?b] |- _ =>
        destruct (Z.compare_spec a b); subst
    | |- context [Pos.compare ?a ?b] =>
        destruct (Pos.compare_spec a b); subst
    | H : context [Pos.compare ?a ?b] |- _ =>
        destruct (Pos.compare_spec a b); subst
    end;
  simpl in *; try reflexivity; try discriminate; try lia.

Lemma SFleb_total (a b : spec_float) :
  a <> S754_nan -> b <> S754_nan -> SFleb a b = false -> SFleb b a = true.
Proof.
  intros Ha Hb. unfold SFleb.
  destruct a as [sa | sa | | sa ma ea]; try congruence;
    destruct b as [sb | sb | | sb mb eb]; try congruence;
    try (destruct sa; simpl; congruence);
    try (destruct sb; simpl; congruence);
    try (destruct sa, sb; simpl; congruence).
  destruct sa, sb; try (simpl; congruence);
    rewrite ?SFcompare_finite_pos, ?SFcompare_finite_neg; cmp_cases.
Qed.

Lemma SFleb_trans (a b c : spec_float) :
  SFleb a b = true -> SFleb b c = true -> SFleb a c = true.
Proof.
  unfold SFleb.
  destruct a as [sa | sa | | sa ma ea];
    destruct b as [sb | sb | | sb mb eb];
    destruct c as [sc | sc | | sc mc ec];
    try (simpl; congruence);
    try (destruct sa; simpl; congruence);
    try (destruct sb; simpl; congruence);
    try (destruct sc; simpl; congruence);
    try (destruct sa, sb; simpl; congruence);
    try (destruct sa, sc; simpl; congruence);
    try (destruct sb, sc; simpl; congruence);
    try (destruct sa, sb, sc; simpl; congruence).
  destruct sa, sb, sc; try (simpl; congruence);
    rewrite ?SFcompare_finite_pos, ?SFcompare_finite_neg;
    try (simpl; congruence); cmp_cases.
Qed.

Lemma leb_total (x y : float) :
  is_nan x = false -> is_nan y = false -> (x <=? y) = false -> (y <=? x) = true.
Proof.
  rewrite !is_nan_spec, !leb_spec. intros Hx Hy.
  apply SFleb_total; intro E; rewrite E in *; discriminate.
Qed.

Lemma leb_trans (x y z : float) :
  (x <=? y) = true -> (y <=? z) = true -> (x <=? z) = true.
Proof. rewrite !leb_spec. apply SFleb_trans. Qed.

Lemma leb_refl (x : float) : is_nan x = false -> (x <=? x) = true.
Proof.
  intro Hx. destruct (x <=? x) eqn:E; [reflexivity|].
  rewrite <- E. apply (leb_total x x Hx Hx E).
Qed.

Lemma leb_nan_l (x y : float) : is_nan x = true -> (x <=? y) = false.
Proof.
  rewrite is_nan_spec, leb_spec. unfold SFleb.
  destruct (Prim2SF x); try discriminate. reflexivity.
Qed.

Lemma leb_nan_r (x y : float) : is_nan y = true -> (x <=? y) = false.
Proof.
  rewrite is_nan_spec, leb_spec. unfold SFleb.
  destruct (Prim2SF y); try discriminate.
  destruct (Prim2SF x); reflexivity.
Qed.

Lemma ltb_leb_false (x y : float) : (x <=? y) = true -> (y <? x) = false.
Proof.
  rewrite leb_spec, ltb_spec. unfold SFleb, SFltb.
  destruct (Prim2SF x) as [sa | sa | | sa ma ea];
    destruct (Prim2SF y) as [sb | sb | | sb mb eb];
    try (simpl; congruence);
    try (destruct sa; simpl; congruence);
    try (destruct sb; simpl; congruence);
    try (destruct sa, sb; simpl; congruence).
  destruct sa, sb; try (simpl; congruence);
    rewrite ?SFcompare_finite_pos, ?SFcompare_finite_neg; cmp_cases.
Qed.

End F64.

(** ** numpy: [argmin] and [argmax] over a float64 vector

    numpy scans the vector once and keeps the first extreme value; a NaN, once
    met, is the result ("propagate nans").  The two scans differ by the
    comparison only: [argmin] replaces the running value [mp] by the element
    [x] unless [x >= mp], [argmax] unless [x <= mp]. *)

Module Np.

#[local] Open Scope float_scope.
#[local] Open Scope nat_scope.

Section Scan.

(** [keep mp x]: the running extreme [mp] stays when [x] is read. *)
Variable keep : float -> float -> bool.

Fixpoint scan (mp : float) (ind i : nat) (ip : list float) : nat :=
  match ip with
  | [] => ind
  | x :: ip' =>
      if negb (keep mp x)
      then (if is_nan x then i else scan x i (S i) ip')
      else scan mp ind (S i) ip'
  end.

Definition arg (a : list float) : Py.result nat :=
  match a with
  | [] => Py.Raise Py.ValueError
  | mp :: ip => Py.Ok (if is_nan mp then 0 else scan mp 0 1 ip)
  end.

Lemma scan_bound (ip : list float) :
  forall mp ind i, ind < i -> scan mp ind i ip < i + length ip.
Proof.
  induction ip as [|x ip IH]; intros mp ind i Hlt; simpl.
  - lia.
  - destruct (negb (keep mp x)).
    + destruct (is_nan x).
      * lia.
      * specialize (IH x i (S i)). lia.
    + specialize (IH mp ind (S i)). lia.
Qed.

Lemma arg_bound (a : list float) (i : nat) :
  arg a = Py.Ok i -> i < length a.
Proof.
  destruct a as [|mp ip]; simpl; [discriminate|].
  intros [= <-]. destruct (is_nan mp); [lia|].
  pose proof (scan_bound ip mp 0 1). simpl in *. lia.
Qed.

Lemma arg_total (a : list float) :
  a <> [] -> exists i, arg a = Py.Ok i.
Proof. destruct a; [congruence|]. intros _. eexists. reflexivity. Qed.

Hypothesis keep_total : forall x y,
    is_nan x = false -> is_nan y = false -> keep x y = false -> keep y x = true.
Hypothesis keep_trans : forall x y z,
    keep x y = true -> keep y z = true -> keep x z = true.

Lemma keep_refl (x : float) : is_nan x = false -> keep x x = true.
Proof.
  intro Hx. destruct (keep x x) eqn:E; [reflexivity|].
  rewrite <- E. apply (keep_total x x Hx Hx E).
Qed.

Lemma scan_extreme (ip : list float) :
  forall pre mp ind,
    Forall (fun x => is_nan x = false) (pre ++ ip) ->
    nth_error pre ind = Some mp ->
    (forall x, In x pre -> keep mp x = true) ->
    exists v, nth_error (pre ++ ip) (scan mp ind (length pre) ip) = Some v
              /\ forall x, In x (pre ++ ip) -> keep v x = true.
Proof.
  induction ip as [|x ip IH]; intros pre mp ind Hnan Hnth Hpre; simpl.
  - rewrite app_nil_r. exists mp. split; [exact Hnth|].
    intros y Hy. auto.
  - assert (Hx : is_nan x = false).
    { rewrite Forall_forall in Hnan. apply Hnan, in_or_app. right. left. reflexivity. }
    assert (Hmp : is_nan mp = false).
    { rewrite Forall_forall in Hnan. apply Hnan, in_or_app. left.
      eapply nth_error_In; eauto. }
    replace (pre ++ x :: ip) with ((pre ++ [x]) ++ ip) in *
      by (rewrite <- app_assoc; reflexivity).
    replace (S (length pre)) with (length (pre ++ [x]))
      by (rewrite length_app; simpl; lia).
    destruct (keep mp x) eqn:E; simpl.
    + apply IH; auto.
      * rewrite nth_error_app1; [exact Hnth|].
        apply nth_error_Some. congruence.
      * intros y Hy. apply in_app_or in Hy. destruct Hy as [Hy|[<-|[]]]; auto.
    + rewrite Hx.
      apply (IH (pre ++ [x]) x (length pre)); auto.
      * rewrite nth_error_app2 by lia.
        rewrite Nat.sub_diag. reflexivity.
      * intros y Hy. apply in_app_or in Hy. destruct Hy as [Hy|[<-|[]]].
        -- apply keep_trans with mp; auto.
        -- apply keep_refl; auto.
Qed.

(** On a vector without NaN, [arg] is the position of an element that is
    kept against every element. *)
Lemma arg_extreme (a : list float) (i : nat) :
  Forall (fun x => is_nan x = false) a ->
  arg a = Py.Ok i ->
  exists v, nth_error a i = Some v /\ forall x, In x a -> keep v x = true.
Proof.
  destruct a as [|mp ip]; simpl; [discriminate|].
  intros Hnan [= <-].
  assert (Hmp : is_nan mp = false) by (inversion Hnan; assumption).
  rewrite Hmp.
  apply (scan_extreme ip [mp] mp 0); auto.
  intros y [<-|[]]. apply keep_refl; auto.
Qed.

End Scan.

(** [np.argmin]: the element replaces [mp] unless [x >= mp]. *)
Definition argmin : list float -> Py.result nat :=
  arg (fun mp x => (mp <=? x)%float).

(** [np.argmax]: the element replaces [mp] unless [x <= mp]. *)
Definition argmax : list float -> Py.result nat :=
  arg (fun mp x => (x <=? mp)%float).

Lemma argmin_least (a : list float) (i : nat) :
  Forall (fun x => is_nan x = false) a ->
  argmin a = Py.Ok i ->
  exists v, nth_error a i = Some v /\ forall x, In x a -> (v <=? x)%float = true.
Proof.
  apply arg_extreme.
  - intros x y Hx Hy. apply F64.leb_total; assumption.
  - intros x y z. apply F64.leb_trans.
Qed.

Lemma argmax_greatest (a : list float) (i : nat) :
  Forall (fun x => is_nan x = false) a ->
  argmax a = Py.Ok i ->
  exists v, nth_error a i = Some v /\ forall x, In x a -> (x <=? v)%float = true.
Proof.
  apply (arg_extreme (fun mp x => (x <=? mp)%float)).
  - intros x y Hx Hy. apply F64.leb_total; assumption.
  - intros x y z H1 H2. apply F64.leb_trans with y; assumption.
Qed.

(** *** Ties and NaN in the scans *)

Section ScanOrder.

Variable keep : float -> float -> bool.
Hypothesis keep_total : forall x y,
    is_nan x = false -> is_nan y = false -> keep x y = false -> keep y x = true.
Hypothesis keep_trans : forall x y z,
    keep x y = true -> keep y z = true -> keep x z = true.

Lemma scan_first (ip : list float) :
  forall pre mp ind,
    Forall (fun x => is_nan x = false) (pre ++ ip) ->
    nth_error pre ind = Some mp ->
    (forall j x, j < ind -> nth_error pre j = Some x -> keep x mp = false) ->
    (forall x, In x pre -> keep mp x = true) ->
    exists v, nth_error (pre ++ ip) (scan keep mp ind (length pre) ip) = Some v
              /\ forall j x, j < scan keep mp ind (length pre) ip ->
                             nth_error (pre ++ ip) j = Some x -> keep x v = false.
Proof.
  induction ip as [|x ip IH]; intros pre mp ind Hnan Hnth Hbefore Hpre; simpl.
  - rewrite app_nil_r. exists mp. split; [exact Hnth|]. exact Hbefore.
  - assert (Hx : is_nan x = false).
    { rewrite Forall_forall in Hnan. apply Hnan, in_or_app. right. left. reflexivity. }
    assert (Hlt : ind < length pre) by (apply nth_error_Some; congruence).
    replace (pre ++ x :: ip) with ((pre ++ [x]) ++ ip) in *
      by (rewrite <- app_assoc; reflexivity).
    replace (S (length pre)) with (length (pre ++ [x]))
      by (rewrite length_app; simpl; lia).
    destruct (keep mp x) eqn:E; simpl.
    + apply IH; auto.
      * rewrite nth_error_app1 by exact Hlt. exact Hnth.
      * intros j y Hj Hy. rewrite nth_error_app1 in Hy by lia. eauto.
      * intros y Hy. apply in_app_or in Hy. destruct Hy as [Hy|[<-|[]]]; auto.
    + rewrite Hx.
      apply (IH (pre ++ [x]) x (length pre)); auto.
      * rewrite nth_error_app2 by lia. rewrite Nat.sub_diag. reflexivity.
      * intros j y Hj Hy. rewrite nth_error_app1 in Hy by exact Hj.
        destruct (keep y x) eqn:Eyx; [|reflexivity].
        assert (Hmy : keep mp y = true) by (apply Hpre; eapply nth_error_In; eauto).
        rewrite (keep_trans _ _ _ Hmy Eyx) in E. discriminate.
      * intros y Hy. apply in_app_or in Hy. destruct Hy as [Hy|[<-|[]]].
        -- apply keep_trans with mp; auto.
           apply keep_total; auto.
           rewrite Forall_forall in Hnan. apply Hnan, in_or_app. left.
           apply in_or_app. left. eapply nth_error_In; eauto.
        -- apply (keep_refl keep keep_total). exact Hx.
Qed.

(** On a vector without NaN, every element before the position [arg]
    answers is strictly worse than the element at that position. *)
Lemma arg_first (a : list float) (i : nat) :
  Forall (fun x => is_nan x = false) a ->
  arg keep a = Py.Ok i ->
  exists v, nth_error a i = Some v
            /\ forall j x, j < i -> nth_error a j = Some x -> keep x v = false.
Proof.
  destruct a as [|mp ip]; simpl; [discriminate|].
  intros Hnan [= <-].
  assert (Hmp : is_nan mp = false) by (inversion Hnan; assumption).
  rewrite Hmp.
  apply (scan_first ip [mp] mp 0); auto.
  - intros j x Hj. lia.
  - intros y [<-|[]]. apply (keep_refl keep keep_total). exact Hmp.
Qed.

Hypothesis keep_nan : forall mp x, is_nan x = true -> keep mp x = false.

Lemma scan_nan (x : float) (post : list float) (pre : list float) :
  is_nan x = true ->
  forall mp ind i,
    Forall (fun y => is_nan y = false) pre ->
    scan keep mp ind i (pre ++ x :: post) = i + length pre.
Proof.
  intro Hx. induction pre as [|y pre IH]; intros mp ind i Hpre; simpl.
  - rewrite (keep_nan mp x Hx), Hx. simpl. lia.
  - inversion Hpre as [|? ? Hy Hpre']; subst.
    destruct (keep mp y); simpl.
    + rewrite IH by assumption. lia.
    + rewrite Hy. rewrite IH by assumption. lia.
Qed.

(** A NaN is the answer of the scan: [arg] is the position of the first
    NaN of the vector. *)
Lemma arg_nan (pre : list float) (x : float) (post : list float) :
  Forall (fun y => is_nan y = false) pre ->
  is_nan x = true ->
  arg keep (pre ++ x :: post) = Py.Ok (length pre).
Proof.
  intros Hpre Hx. destruct pre as [|mp pre]; simpl.
  - rewrite Hx. reflexivity.
  - inversion Hpre as [|? ? Hmp Hpre']; subst. rewrite Hmp.
    rewrite (scan_nan x post pre Hx) by assumption. reflexivity.
Qed.

End ScanOrder.

Lemma argmin_first (a : list float) (i : nat) :
  Forall (fun x => is_nan x = false) a ->
  argmin a = Py.Ok i ->
  exists v, nth_error a i = Some v
            /\ forall j x, j < i -> nth_error a j = Some x -> (x <=? v)%float = false.
Proof.
  apply (arg_first (fun mp x => (mp <=? x)%float)).
  - intros x y Hx Hy. apply F64.leb_total; assumption.
  - intros x y z. apply F64.leb_trans.
Qed.

Lemma argmax_first (a : list float) (i : nat) :
  Forall (fun x => is_nan x = false) a ->
  argmax a = Py.Ok i ->
  exists v, nth_error a i = Some v
            /\ forall j x, j < i -> nth_error a j = Some x -> (v <=? x)%float = false.
Proof.
  apply (arg_first (fun mp x => (x <=? mp)%float)).
  - intros x y Hx Hy. apply F64.leb_total; assumption.
  - intros x y z H1 H2. apply F64.leb_trans with y; assumption.
Qed.

Lemma argmax_nan (pre : list float) (x : float) (post : list float) :
  Forall (fun y => is_nan y = false) pre ->
  is_nan x = true ->
  argmax (pre ++ x :: post) = Py.Ok (length pre).
Proof.
  apply (arg_nan (fun mp x => (x <=? mp)%float)).
  intros mp y Hy. apply F64.leb_nan_l. exact Hy.
Qed.

End Np.

(** ** pandas: group-wise sums and [idxmin] / [idxmax] *)

Module Pd.

#[local] Open Scope float_scope.

(** *** The sum of a group

    pandas adds the values of a group in row order with Kahan's compensated
    summation and skips NaN values; a compensation that is itself NaN (an
    infinite value was added) is reset to zero. *)

Record kahan : Type := { sumx : float; compensation : float }.

Definition kahan0 : kahan := {| sumx := 0; compensation := 0 |}.

Definition kahan_add (a : kahan) (val : float) : kahan :=
  if is_nan val then a
  else
    let y := val - compensation a in
    let t := sumx a + y in
    let c := t - sumx a - y in
    {| sumx := t; compensation := if is_nan c then 0 else c |}.

Definition group_sum (vals : list float) : float :=
  sumx (fold_left kahan_add vals kahan0).

(** *** [groupby]

    The rows are read once: each row updates the accumulator of its key, a
    key met for the first time gets a fresh accumulator.  The keys of the
    result are then sorted ([sort=True], the default). *)

Section GroupBy.

Context {K R A : Type}.
Variable kcmp : K -> K -> comparison.
Variable key : R -> K.
Variable init : A.
Variable step : A -> R -> A.

Definition keqb (k k' : K) : bool :=
  match kcmp k k' with Eq => true | _ => false end.

Fixpoint accumulate1 (r : R) (g : list (K * A)) : list (K * A) :=
  match g with
  | [] => [(key r, step init r)]
  | (k, a) :: g' =>
      if keqb (key r) k then (k, step a r) :: g'
      else (k, a) :: accumulate1 r g'
  end.

Definition accumulate (rows : list R) : list (K * A) :=
  fold_left (fun g r => accumulate1 r g) rows [].

Fixpoint insert_sorted (p : K * A) (g : list (K * A)) : list (K * A) :=
  match g with
  | [] => [p]
  | q :: g' =>
      match kcmp (fst p) (fst q) with
      | Gt => q :: insert_sorted p g'
      | _ => p :: g
      end
  end.

Definition sort_index (g : list (K * A)) : list (K * A) :=
  fold_right insert_sorted [] g.

Definition groupby (rows : list R) : list (K * A) :=
  sort_index (accumulate rows).

(** The rows of one group, in row order. *)
Definition group_rows (k : K) (rows : list R) : list R :=
  filter (fun r => keqb (key r) k) rows.

Fixpoint lookup (k : K) (g : list (K * A)) : option A :=
  match g with
  | [] => None
  | (k', a) :: g' => if keqb k k' then Some a else lookup k g'
  end.

Hypothesis kcmp_eq : forall k k', kcmp k k' = Eq <-> k = k'.

Lemma keqb_eq (k k' : K) : keqb k k' = true <-> k = k'.
Proof.
  unfold keqb. rewrite <- kcmp_eq. destruct (kcmp k k'); split; congruence.
Qed.

Lemma keqb_refl (k : K) : keqb k k = true.
Proof. apply keqb_eq. reflexivity. Qed.

Lemma keqb_neq (k k' : K) : keqb k k' = false <-> k <> k'.
Proof.
  rewrite <- keqb_eq. destruct (keqb k k'); split; congruence.
Qed.

Lemma lookup_accumulate1 (k : K) (r : R) (g : list (K * A)) :
  lookup k (accumulate1 r g)
  = if keqb (key r) k
    then Some (step (match lookup k g with Some a => a | None => init end) r)
    else lookup k g.
Proof.
  induction g as [|[k' a] g IH]; simpl.
  - destruct (keqb (key r) k) eqn:E.
    + apply keqb_eq in E. subst k. rewrite keqb_refl. reflexivity.
    + destruct (keqb k (key r)) eqn:E'; [|reflexivity].
      apply keqb_eq in E'. subst k. rewrite keqb_refl in E. discriminate.
  - destruct (keqb (key r) k') eqn:E1; simpl.
    + apply keqb_eq in E1. subst k'.
      destruct (keqb k (key r)) eqn:E2.
      * apply keqb_eq in E2. subst k. rewrite keqb_refl. reflexivity.
      * destruct (keqb (key r) k) eqn:E3; [|reflexivity].
        apply keqb_eq in E3. subst k. rewrite keqb_refl in E2. discriminate.
    + destruct (keqb k k') eqn:E2.
      * apply keqb_eq in E2. subst k'. rewrite E1. reflexivity.
      * exact IH.
Qed.

Lemma lookup_fold (rows : list R) :
  forall (k : K) (g : list (K * A)),
    lookup k (fold_left (fun g r => accumulate1 r g) rows g)
    = match group_rows k rows with
      | [] => lookup k g
      | rs => Some (fold_left step rs
                      (match lookup k g with Some a => a | None => init end))
      end.
Proof.
  induction rows as [|r rows IH]; intros k g; simpl; [reflexivity|].
  rewrite IH, lookup_accumulate1.
  destruct (keqb (key r) k); simpl.
  - destruct (group_rows k rows); reflexivity.
  - reflexivity.
Qed.

Lemma lookup_accumulate (k : K) (rows : list R) :
  lookup k (accumulate rows)
  = match group_rows k rows with
    | [] => None
    | rs => Some (fold_left step rs init)
    end.
Proof. unfold accumulate. rewrite lookup_fold. reflexivity. Qed.

(** Keys stay distinct. *)

Lemma keys_accumulate1 (r : R) (g : list (K * A)) :
  map fst (accumulate1 r g) = map fst g
  \/ (~ In (key r) (map fst g)
      /\ map fst (accumulate1 r g) = map fst g ++ [key r]).
Proof.
  induction g as [|[k a] g IH]; simpl.
  - right. split; [tauto|reflexivity].
  - destruct (keqb (key r) k) eqn:E; simpl.
    + left. reflexivity.
    + apply keqb_neq in E. destruct IH as [IH|[Hn IH]].
      * left. congruence.
      * right. split; [intros [H|H]; congruence|congruence].
Qed.

Lemma NoDup_snoc (l : list K) (k : K) :
  NoDup l -> ~ In k l -> NoDup (l ++ [k]).
Proof.
  intros Hl Hk. apply Permutation_NoDup with (k :: l).
  - apply Permutation_cons_append.
  - constructor; assumption.
Qed.

Lemma NoDup_accumulate (rows : list R) :
  NoDup (map fst (accumulate rows)).
Proof.
  unfold accumulate.
  assert (H : forall g, NoDup (map fst g) ->
              NoDup (map fst (fold_left (fun g r => accumulate1 r g) rows g))).
  { induction rows as [|r rows IH]; intros g Hg; simpl; [exact Hg|].
    apply IH. destruct (keys_accumulate1 r g) as [E|[Hn E]]; rewrite E.
    - exact Hg.
    - apply NoDup_snoc; assumption. }
  apply H. constructor.
Qed.

Lemma lookup_In (k : K) (a : A) (g : list (K * A)) :
  NoDup (map fst g) -> (In (k, a) g <-> lookup k g = Some a).
Proof.
  induction g as [|[k' a'] g IH]; simpl; intro Hnd.
  - split; [tauto|discriminate].
  - inversion Hnd as [|? ? Hnot Hnd']; subst.
    destruct (keqb k k') eqn:E.
    + apply keqb_eq in E. subst k'. split.
      * intros [H|H]; [congruence|].
        exfalso. apply Hnot. apply (in_map fst) in H. exact H.
      * intros [= ->]. left. reflexivity.
    + apply keqb_neq in E. rewrite <- (IH Hnd'). split.
      * intros [H|H]; [congruence|exact H].
      * intro H. right. exact H.
Qed.

(** Sorting the index permutes the groups. *)

Lemma insert_sorted_perm (p : K * A) (g : list (K * A)) :
  Permutation (insert_sorted p g) (p :: g).
Proof.
  induction g as [|q g IH]; simpl; [reflexivity|].
  destruct (kcmp (fst p) (fst q)); try reflexivity.
  rewrite IH. apply perm_swap.
Qed.

Lemma sort_index_perm (g : list (K * A)) : Permutation (sort_index g) g.
Proof.
  induction g as [|p g IH]; simpl; [reflexivity|].
  rewrite insert_sorted_perm. constructor. exact IH.
Qed.

Lemma NoDup_groupby (rows : list R) : NoDup (map fst (groupby rows)).
Proof.
  unfold groupby.
  apply Permutation_NoDup with (map fst (accumulate rows)).
  - apply Permutation_map. symmetry. apply sort_index_perm.
  - apply NoDup_accumulate.
Qed.

(** The labels of the result come in the order of [kcmp]. *)

Definition key_le (p q : K * A) : Prop := kcmp (fst p) (fst q) <> Gt.

Hypothesis kcmp_antisym : forall k k', kcmp k' k = CompOpp (kcmp k k').

Lemma insert_sorted_Sorted (p : K * A) (g : list (K * A)) :
  Sorted key_le g -> Sorted key_le (insert_sorted p g).
Proof.
  induction g as [|q g IH]; simpl; intro Hs.
  - repeat constructor.
  - inversion Hs as [|? ? Hg Hhd]; subst.
    destruct (kcmp (fst p) (fst q)) eqn:E.
    + constructor; [exact Hs|]. constructor. unfold key_le. congruence.
    + constructor; [exact Hs|]. constructor. unfold key_le. congruence.
    + constructor; [apply IH; exact Hg|].
      assert (Hqp : key_le q p).
      { unfold key_le. rewrite kcmp_antisym, E. discriminate. }
      destruct g as [|q' g]; simpl.
      * constructor. exact Hqp.
      * destruct (kcmp (fst p) (fst q')); constructor;
          try exact Hqp; inversion Hhd; assumption.
Qed.

Lemma sort_index_Sorted (g : list (K * A)) : Sorted key_le (sort_index g).
Proof.
  induction g as [|p g IH]; simpl; [constructor|].
  apply insert_sorted_Sorted. exact IH.
Qed.

(** A group of the result is the fold of [step] over exactly the rows of
    its key, and every key of a row has a group. *)
Theorem In_groupby (k : K) (a : A) (rows : list R) :
  In (k, a) (groupby rows)
  <-> group_rows k rows <> [] /\ a = fold_left step (group_rows k rows) init.
Proof.
  unfold groupby. split.
  - intro H. apply (Permutation_in _ (sort_index_perm _)) in H.
    apply lookup_In in H; [|apply NoDup_accumulate].
    rewrite lookup_accumulate in H.
    destruct (group_rows k rows); [discriminate|].
    split; congruence.
  - intros [Hne ->].
    apply (Permutation_in _ (Permutation_sym (sort_index_perm _))).
    apply lookup_In; [apply NoDup_accumulate|].
    rewrite lookup_accumulate.
    destruct (group_rows k rows); congruence.
Qed.

Lemma group_rows_nonempty (k : K) (rows : list R) :
  group_rows k rows <> [] <-> exists r, In r rows /\ key r = k.
Proof.
  unfold group_rows. split.
  - destruct (filter _ rows) as [|r rs] eqn:E; [congruence|]. intros _.
    assert (H : In r (filter (fun r => keqb (key r) k) rows))
      by (rewrite E; left; reflexivity).
    apply filter_In in H. destruct H as [H1 H2].
    exists r. split; [exact H1|]. apply keqb_eq. exact H2.
  - intros [r [H1 H2]] E.
    assert (H : In r (filter (fun r => keqb (key r) k) rows)).
    { apply filter_In. split; [exact H1|]. apply keqb_eq. exact H2. }
    rewrite E in H. destruct H.
Qed.

End GroupBy.

(** *** [Series.idxmin] and [Series.idxmax]

    A series is a list of (label, value) pairs in index order.  With
    [skipna=True] (the default) the NaN values are replaced by the neutral
    infinity before numpy's scan.  A series whose values are all NaN (an
    empty one too) has no extreme label: pandas 3 raises [ValueError],
    pandas 2 warns and answers a NaN label, which names no row; the model
    raises. *)

Definition fillna (fill : float) (values : list float) : list float :=
  map (fun v => if is_nan v then fill else v) values.

Definition nanargmin (values : list float) : Py.result nat :=
  if forallb is_nan values then Py.Raise Py.ValueError
  else Np.argmin (fillna infinity values).

Definition nanargmax (values : list float) : Py.result nat :=
  if forallb is_nan values then Py.Raise Py.ValueError
  else Np.argmax (fillna neg_infinity values).

Definition label_at {K} (s : list (K * float)) (i : nat) : Py.result K :=
  match nth_error s i with
  | Some (k, _) => Py.Ok k
  | None => Py.Raise Py.IndexError
  end.

Definition idxmin {K} (s : list (K * float)) : Py.result K :=
  i <- nanargmin (map snd s) ;; label_at s i.

Definition idxmax {K} (s : list (K * float)) : Py.result K :=
  i <- nanargmax (map snd s) ;; label_at s i.

Definition no_nan (values : list float) : bool :=
  forallb (fun v => negb (is_nan v)) values.

Lemma no_nan_Forall (values : list float) :
  no_nan values = true -> Forall (fun x => is_nan x = false) values.
Proof.
  unfold no_nan. rewrite forallb_forall, Forall_forall.
  intros H x Hx. apply H in Hx. destruct (is_nan x); [discriminate|reflexivity].
Qed.

Lemma fillna_no_nan (fill : float) (values : list float) :
  is_nan fill = false -> Forall (fun x => is_nan x = false) (fillna fill values).
Proof.
  intro Hf. unfold fillna. apply Forall_forall. intros x Hx.
  apply in_map_iff in Hx. destruct Hx as [v [<- _]].
  destruct (is_nan v) eqn:E; assumption.
Qed.

Lemma fillna_id (fill : float) (values : list float) :
  no_nan values = true -> fillna fill values = values.
Proof.
  unfold no_nan, fillna. induction values as [|v vs IH]; simpl; [reflexivity|].
  intro H. apply andb_true_iff in H. destruct H as [Hv Hvs].
  rewrite IH by assumption. destruct (is_nan v); [discriminate|reflexivity].
Qed.

Lemma forallb_is_nan_false (values : list float) :
  values <> [] -> no_nan values = true -> forallb is_nan values = false.
Proof.
  destruct values as [|v vs]; [congruence|]. simpl. intros _ H.
  apply andb_true_iff in H. destruct H as [Hv _].
  destruct (is_nan v); [discriminate|reflexivity].
Qed.

Section Extremes.

Context {K : Type}.
Variable s : list (K * float).

Lemma label_at_In (i : nat) (v : float) :
  nth_error (map snd s) i = Some v ->
  exists k, label_at s i = Py.Ok k /\ In (k, v) s.
Proof.
  unfold label_at. rewrite nth_error_map.
  destruct (nth_error s i) as [[k v']|] eqn:E; simpl; [|discriminate].
  intros [= ->]. exists k. split; [reflexivity|].
  eapply nth_error_In; eauto.
Qed.

(** Without NaN, [idxmin] is the label of a least value... *)
Lemma idxmin_least (k : K) :
  no_nan (map snd s) = true ->
  idxmin s = Py.Ok k ->
  exists v, In (k, v) s /\ forall k' v', In (k', v') s -> (v <=? v') = true.
Proof.
  intros Hn. unfold idxmin, nanargmin.
  destruct (forallb is_nan (map snd s)); [discriminate|].
  rewrite fillna_id by assumption.
  destruct (Np.argmin (map snd s)) as [i|e] eqn:E; [|discriminate]. simpl.
  destruct (Np.argmin_least _ _ (no_nan_Forall _ Hn) E) as [v [Hv Hle]].
  destruct (label_at_In i v Hv) as [k0 [Hk Hin]].
  rewrite Hk. intros [= <-]. exists v. split; [exact Hin|].
  intros k' v' H'. apply Hle. apply (in_map snd) in H'. exact H'.
Qed.

(** ... and [idxmax] the label of a greatest one. *)
Lemma idxmax_greatest (k : K) :
  no_nan (map snd s) = true ->
  idxmax s = Py.Ok k ->
  exists v, In (k, v) s /\ forall k' v', In (k', v') s -> (v' <=? v) = true.
Proof.
  intros Hn. unfold idxmax, nanargmax.
  destruct (forallb is_nan (map snd s)); [discriminate|].
  rewrite fillna_id by assumption.
  destruct (Np.argmax (map snd s)) as [i|e] eqn:E; [|discriminate]. simpl.
  destruct (Np.argmax_greatest _ _ (no_nan_Forall _ Hn) E) as [v [Hv Hle]].
  destruct (label_at_In i v Hv) as [k0 [Hk Hin]].
  rewrite Hk. intros [= <-]. exists v. split; [exact Hin|].
  intros k' v' H'. apply Hle. apply (in_map snd) in H'. exact H'.
Qed.

Lemma idxmin_total :
  s <> [] -> no_nan (map snd s) = true -> exists k, idxmin s = Py.Ok k.
Proof.
  intros Hs Hn. unfold idxmin, nanargmin.
  rewrite forallb_is_nan_false; [|destruct s; [congruence|discriminate]|exact Hn].
  rewrite fillna_id by assumption.
  destruct (Np.arg_total (fun mp x => mp <=? x) (map snd s)) as [i Hi];
    [destruct s; [congruence|discriminate]|].
  unfold Np.argmin. rewrite Hi. simpl.
  apply Np.arg_bound in Hi.
  destruct (nth_error (map snd s) i) as [v|] eqn:E.
  - destruct (label_at_In i v E) as [k [Hk _]]. exists k. exact Hk.
  - apply nth_error_None in E. lia.
Qed.

Lemma idxmax_total :
  s <> [] -> no_nan (map snd s) = true -> exists k, idxmax s = Py.Ok k.
Proof.
  intros Hs Hn. unfold idxmax, nanargmax.
  rewrite forallb_is_nan_false; [|destruct s; [congruence|discriminate]|exact Hn].
  rewrite fillna_id by assumption.
  destruct (Np.arg_total (fun mp x => x <=? mp) (map snd s)) as [i Hi];
    [destruct s; [congruence|discriminate]|].
  unfold Np.argmax. rewrite Hi. simpl.
  apply Np.arg_bound in Hi.
  destruct (nth_error (map snd s) i) as [v|] eqn:E.
  - destruct (label_at_In i v E) as [k [Hk _]]. exists k. exact Hk.
  - apply nth_error_None in E. lia.
Qed.

(** Whatever the values, no value of the series is strictly above the
    one [idxmax] selects; without NaN that value is at least every value. *)
Lemma idxmax_not_exceeded (k : K) :
  idxmax s = Py.Ok k ->
  exists v,
    In (k, v) s
    /\ (forall k' v', In (k', v') s -> (v <? v') = false)
    /\ (no_nan (map snd s) = true ->
        forall k' v', In (k', v') s -> (v' <=? v) = true).
Proof.
  unfold idxmax, nanargmax.
  destruct (forallb is_nan (map snd s)); [discriminate|].
  destruct (Np.argmax (fillna neg_infinity (map snd s))) as [i|e] eqn:E;
    [|discriminate]. simpl.
  destruct (Np.argmax_greatest _ _ (fillna_no_nan neg_infinity _ eq_refl) E)
    as [w [Hw Hle]].
  unfold fillna in Hw. rewrite nth_error_map in Hw.
  destruct (nth_error (map snd s) i) as [v|] eqn:Ev; [|discriminate].
  simpl in Hw. injection Hw as Hw.
  destruct (label_at_In i v Ev) as [k0 [Hk Hin]].
  rewrite Hk. intros [= <-]. exists v. split; [exact Hin|].
  assert (Hfill : forall k' v', In (k', v') s ->
            ((if is_nan v' then neg_infinity else v') <=? w) = true).
  { intros k' v' H'. apply Hle. unfold fillna. apply in_map_iff.
    exists v'. split; [reflexivity|]. apply (in_map snd) in H'. exact H'. }
  split.
  - intros k' v' H'. pose proof (Hfill k' v' H') as Hf.
    destruct (is_nan v') eqn:Nv'.
    + rewrite ltb_spec. rewrite F64.is_nan_spec in Nv'. unfold SFltb.
      destruct (Prim2SF v'); try discriminate.
      destruct (Prim2SF v); reflexivity.
    + destruct (is_nan v) eqn:Nv.
      * rewrite ltb_spec. rewrite F64.is_nan_spec in Nv. unfold SFltb.
        destruct (Prim2SF v); try discriminate. reflexivity.
      * subst w. apply F64.ltb_leb_false. exact Hf.
  - intros Hn k' v' H'. pose proof (Hfill k' v' H') as Hf.
    apply no_nan_Forall in Hn. rewrite Forall_forall in Hn.
    rewrite (Hn v') in Hf by (apply (in_map snd) in H'; exact H').
    rewrite (Hn v) in Hw by (apply (in_map snd) in Hin; exact Hin).
    subst w. exact Hf.
Qed.

End Extremes.

(** *** Positions of the extremes, and NaN in the sums *)

Lemma label_at_position {K} (s : list (K * float)) (i : nat) (k : K) :
  label_at s i = Py.Ok k -> exists v, nth_error s i = Some (k, v).
Proof.
  unfold label_at. destruct (nth_error s i) as [[k' v]|]; [|discriminate].
  intros [= <-]. exists v. reflexivity.
Qed.

Lemma idxmin_position {K} (s : list (K * float)) (k : K) :
  idxmin s = Py.Ok k -> exists i v, nth_error s i = Some (k, v).
Proof.
  unfold idxmin. destruct (nanargmin (map snd s)) as [i|e]; [|discriminate].
  simpl. intro H. apply label_at_position in H. destruct H as [v Hv].
  exists i, v. exact Hv.
Qed.

Lemma idxmax_position {K} (s : list (K * float)) (k : K) :
  idxmax s = Py.Ok k -> exists i v, nth_error s i = Some (k, v).
Proof.
  unfold idxmax. destruct (nanargmax (map snd s)) as [i|e]; [|discriminate].
  simpl. intro H. apply label_at_position in H. destruct H as [v Hv].
  exists i, v. exact Hv.
Qed.

(** Without NaN, every value before the one [idxmin] selects is strictly
    above it: of several least values the first in index order is taken. *)
Lemma idxmin_earliest {K} (s : list (K * float)) (k : K) :
  no_nan (map snd s) = true ->
  idxmin s = Py.Ok k ->
  exists i v,
    nth_error s i = Some (k, v)
    /\ forall j k' v', (j < i)%nat -> nth_error s j = Some (k', v') ->
                       (v' <=? v) = false.
Proof.
  intros Hn. unfold idxmin, nanargmin.
  destruct (forallb is_nan (map snd s)); [discriminate|].
  rewrite fillna_id by assumption.
  destruct (Np.argmin (map snd s)) as [i|e] eqn:E; [|discriminate]. simpl.
  destruct (Np.argmin_first _ _ (no_nan_Forall _ Hn) E) as [v [Hv Hfirst]].
  intro H. apply label_at_position in H. destruct H as [v0 Hv0].
  rewrite nth_error_map, Hv0 in Hv. simpl in Hv. injection Hv as ->.
  exists i, v. split; [exact Hv0|].
  intros j k' v' Hj Hnth. apply (Hfirst j); [exact Hj|].
  rewrite nth_error_map, Hnth. reflexivity.
Qed.

Lemma idxmax_earliest {K} (s : list (K * float)) (k : K) :
  no_nan (map snd s) = true ->
  idxmax s = Py.Ok k ->
  exists i v,
    nth_error s i = Some (k, v)
    /\ forall j k' v', (j < i)%nat -> nth_error s j = Some (k', v') ->
                       (v <=? v') = false.
Proof.
  intros Hn. unfold idxmax, nanargmax.
  destruct (forallb is_nan (map snd s)); [discriminate|].
  rewrite fillna_id by assumption.
  destruct (Np.argmax (map snd s)) as [i|e] eqn:E; [|discriminate]. simpl.
  destruct (Np.argmax_first _ _ (no_nan_Forall _ Hn) E) as [v [Hv Hfirst]].
  intro H. apply label_at_position in H. destruct H as [v0 Hv0].
  rewrite nth_error_map, Hv0 in Hv. simpl in Hv. injection Hv as ->.
  exists i, v. split; [exact Hv0|].
  intros j k' v' Hj Hnth. apply (Hfirst j); [exact Hj|].
  rewrite nth_error_map, Hnth. reflexivity.
Qed.

Lemma fold_kahan_skipna (vals : list float) :
  forall a,
    fold_left kahan_add vals a
    = fold_left kahan_add (filter (fun v => negb (is_nan v)) vals) a.
Proof.
  induction vals as [|v vals IH]; intro a; simpl; [reflexivity|].
  destruct (is_nan v) eqn:E; simpl.
  - unfold kahan_add at 2. rewrite E. apply IH.
  - apply IH.
Qed.

End Pd.

(** ** Calendar dates

    A date is the number of days since 1970-01-01.  [day_of_month] and
    [weekday] (Monday is 0) are the fields [DatetimeIndex.day] and
    [DatetimeIndex.weekday] of the proleptic Gregorian calendar. *)

Module Calendar.

Definition day_of_month (date : Z) : Z :=
  let z := date + 719468 in
  let era := z / 146097 in
  let doe := z - era * 146097 in
  let yoe := (doe - doe / 1460 + doe / 36524 - doe / 146096) / 365 in
  let doy := doe - (365 * yoe + yoe / 4 - yoe / 100) in
  let mp := (5 * doy + 2) / 153 in
  doy - (153 * mp + 2) / 5 + 1.

Definition weekday (date : Z) : Z := (date + 3) mod 7.

(** 2022-09-24, the default start date of the form, was a Saturday. *)
Definition date_2022_09_24 : Z := 19259.

Example day_of_month_default : day_of_month date_2022_09_24 = 24.
Proof. reflexivity. Qed.

Example weekday_default : weekday date_2022_09_24 = 5.
Proof. reflexivity. Qed.

Example day_of_month_month_end :
  map day_of_month [19265; 19266; 19296; 19297] = [30; 1; 31; 1].
Proof. reflexivity. Qed.

End Calendar.

(** ** [app.py]: the energy forecast *)

Module App.

#[local] Open Scope float_scope.

Definition CO2_FACTOR : float := 0.475.
Definition TARIFF_DAY : float := 0.15.
Definition TARIFF_NIGHT : float := 0.09.

(** A Python [int] as a float64; exact on the range of the sliders. *)
Definition float_of_int (z : Z) : float :=
  if (z <? 0)%Z then - of_uint63 (Uint63.of_Z (- z))
  else of_uint63 (Uint63.of_Z z).

(** An hourly timestamp: its calendar date and its hour of the day. *)
Record Timestamp : Type := { ts_date : Z; ts_hour : Z }.

(** [pd.date_range(start=start_date, periods=periods, freq="h")]: the
    start is a calendar date, that is midnight of that day. *)
Definition date_range (start_date : Z) (periods : nat) : list Timestamp :=
  map (fun i => {| ts_date := start_date + Z.of_nat i / 24;
                   ts_hour := Z.of_nat i mod 24 |})
      (seq 0 periods).

(** One row of the frame; [Cost_usd] is the column ["Cost_$"]. *)
Record Row : Type := {
  hour : Z;
  day : Z;
  weekday : Z;
  node_encoded : Z;
  timestamp : Timestamp;
  Watts : float;
  Energy_kWh : float;
  CO2_kg : float;
  Cost_usd : float;
  Appliance : Py.str
}.

(** The rate of the lambda that computes ["Cost_$"]. *)
Definition tariff (h : Z) : float :=
  if ((22 <=? h)%Z || (h <? 6)%Z)%bool then TARIFF_NIGHT else TARIFF_DAY.

(** The three summed columns of [summary] and [daily_summary]. *)
Record Sums : Type := {
  sum_Energy_kWh : float;
  sum_CO2_kg : float;
  sum_Cost_usd : float
}.

Record Acc : Type := {
  acc_Energy_kWh : Pd.kahan;
  acc_CO2_kg : Pd.kahan;
  acc_Cost_usd : Pd.kahan
}.

Definition acc0 : Acc :=
  {| acc_Energy_kWh := Pd.kahan0; acc_CO2_kg := Pd.kahan0;
     acc_Cost_usd := Pd.kahan0 |}.

Definition acc_row (a : Acc) (r : Row) : Acc :=
  {| acc_Energy_kWh := Pd.kahan_add (acc_Energy_kWh a) (Energy_kWh r);
     acc_CO2_kg := Pd.kahan_add (acc_CO2_kg a) (CO2_kg r);
     acc_Cost_usd := Pd.kahan_add (acc_Cost_usd a) (Cost_usd r) |}.

Definition acc_sums (a : Acc) : Sums :=
  {| sum_Energy_kWh := Pd.sumx (acc_Energy_kWh a);
     sum_CO2_kg := Pd.sumx (acc_CO2_kg a);
     sum_Cost_usd := Pd.sumx (acc_Cost_usd a) |}.

(** [rows.groupby(key)[["Energy_kWh","CO2_kg","Cost_$"]].sum()] *)
Definition groupby_sum {K} (kcmp : K -> K -> comparison) (key : Row -> K)
    (rows : list Row) : list (K * Sums) :=
  map (fun p => (fst p, acc_sums (snd p))) (Pd.groupby kcmp key acc0 acc_row rows).

(** One column of an aggregate, as a series. *)
Definition column {K} (col : Sums -> float) (t : list (K * Sums)) : list (K * float) :=
  map (fun p => (fst p, col (snd p))) t.

(** The sums of the three columns over a list of rows, each in row order. *)
Definition sums_of (rows : list Row) : Sums :=
  {| sum_Energy_kWh := Pd.group_sum (map Energy_kWh rows);
     sum_CO2_kg := Pd.group_sum (map CO2_kg rows);
     sum_Cost_usd := Pd.group_sum (map Cost_usd rows) |}.

(** [pd.concat] refuses an empty list of frames. *)
Definition pd_concat (results : list (list Row)) : Py.result (list Row) :=
  match results with
  | [] => Py.Raise Py.ValueError
  | _ => Py.Ok (concat results)
  end.

Record Output : Type := {
  final : list Row;
  summary : list (Py.str * Sums);
  daily_summary : list (Z * Sums);
  best_day : Z;
  worst_day : Z;
  top_cost_appliance : Py.str;
  top_co2_appliance : Py.str
}.

Section Forecast.

(** The artefacts loaded at start-up: the regression model, as the
    function from a feature row (hour, day, weekday, node_encoded) to
    watts, and the classes of the label encoder. *)
Variable reg_predict : Z -> Z -> Z -> Z -> float.
Variable classes : list Py.str.

Fixpoint index_of (device : Py.str) (l : list Py.str) (i : Z) : option Z :=
  match l with
  | [] => None
  | c :: l' => if Py.str_eqb device c then Some i else index_of device l' (i + 1)%Z
  end.

(** [le.transform([device])[0]]: an unseen label is refused. *)
Definition le_transform (device : Py.str) : Py.result Z :=
  match index_of device classes 0 with
  | Some i => Py.Ok i
  | None => Py.Raise Py.ValueError
  end.

(** The frame of one appliance, with its derived columns. *)
Definition device_frame (device : Py.str) (dev_id : Z)
    (future : list Timestamp) (duration : Z) : list Row :=
  map (fun t =>
         let h := ts_hour t in
         let d := Calendar.day_of_month (ts_date t) in
         let wd := Calendar.weekday (ts_date t) in
         let watts := reg_predict h d wd dev_id in
         let energy := (watts * float_of_int duration) / 1000 in
         {| hour := h; day := d; weekday := wd; node_encoded := dev_id;
            timestamp := t;
            Watts := watts;
            Energy_kWh := energy;
            CO2_kg := energy * CO2_FACTOR;
            Cost_usd := energy * tariff h;
            Appliance := device |})
      future.

(** The loop over the selected appliances. *)
Fixpoint forecast_devices (selected_devices : list Py.str)
    (future : list Timestamp) (duration : Z) : Py.result (list (list Row)) :=
  match selected_devices with
  | [] => Py.Ok []
  | device :: rest =>
      dev_id <- le_transform device ;;
      results <- forecast_devices rest future duration ;;
      Py.Ok (device_frame device dev_id future duration :: results)
  end.

(** The body of [if st.button("Run Forecast")] up to the recommendations
    (lines 26 to 88).  The formatted texts only display these values; the
    charts that follow (lines 90 to 100) are not modelled. *)
Definition run_forecast (selected_devices : list Py.str)
    (days duration start_date : Z) : Py.result Output :=
  let hours_ahead := (24 * days)%Z in
  let future := date_range start_date (Z.to_nat hours_ahead) in
  results <- forecast_devices selected_devices future duration ;;
  final <- pd_concat results ;;
  let summary := groupby_sum Py.str_compare Appliance final in
  let daily_summary :=
    groupby_sum Z.compare (fun r => ts_date (timestamp r)) final in
  best_day <- Pd.idxmin (column sum_Cost_usd daily_summary) ;;
  worst_day <- Pd.idxmax (column sum_Cost_usd daily_summary) ;;
  top_cost_appliance <- Pd.idxmax (column sum_Cost_usd summary) ;;
  top_co2_appliance <- Pd.idxmax (column sum_CO2_kg summary) ;;
  Py.Ok {| final := final;
           summary := summary;
           daily_summary := daily_summary;
           best_day := best_day;
           worst_day := worst_day;
           top_cost_appliance := top_cost_appliance;
           top_co2_appliance := top_co2_appliance |}.

(** *** What a completed run consists of *)

Lemma forecast_devices_rows (selected_devices : list Py.str)
    (future : list Timestamp) (duration : Z) :
  forall results,
    forecast_devices selected_devices future duration = Py.Ok results ->
    length results = length selected_devices
    /\ forall r, In r (concat results) ->
         exists device dev_id,
           In device selected_devices
           /\ le_transform device = Py.Ok dev_id
           /\ In r (device_frame device dev_id future duration).
Proof.
  induction selected_devices as [|device rest IH]; simpl; intros results H.
  - injection H as <-. split; [reflexivity|]. intros r [].
  - destruct (le_transform device) as [dev_id|e] eqn:E; simpl in H; [|discriminate].
    destruct (forecast_devices rest future duration) as [res|e] eqn:E';
      simpl in H; [|discriminate].
    injection H as <-. destruct (IH res eq_refl) as [Hlen Hrows].
    split; [simpl; congruence|].
    intros r Hr. simpl in Hr. apply in_app_or in Hr. destruct Hr as [Hr|Hr].
    + exists device, dev_id. auto.
    + destruct (Hrows r Hr) as [dv [id [H1 [H2 H3]]]].
      exists dv, id. auto.
Qed.

Lemma forecast_devices_frames (selected_devices : list Py.str)
    (future : list Timestamp) (duration : Z) :
  forall results device,
    forecast_devices selected_devices future duration = Py.Ok results ->
    In device selected_devices ->
    exists dev_id,
      le_transform device = Py.Ok dev_id
      /\ incl (device_frame device dev_id future duration) (concat results).
Proof.
  induction selected_devices as [|dv rest IH]; simpl; intros results device H Hin.
  - destruct Hin.
  - destruct (le_transform dv) as [dev_id|e] eqn:E; simpl in H; [|discriminate].
    destruct (forecast_devices rest future duration) as [res|e] eqn:E';
      simpl in H; [|discriminate].
    injection H as <-. simpl. destruct Hin as [->|Hin].
    + exists dev_id. split; [exact E|]. apply incl_appl, incl_refl.
    + destruct (IH res device eq_refl Hin) as [id [H1 H2]].
      exists id. split; [exact H1|]. apply incl_appr. exact H2.
Qed.

Lemma forecast_devices_total (selected_devices : list Py.str)
    (future : list Timestamp) (duration : Z) :
  (forall device, In device selected_devices -> In device classes) ->
  exists results,
    forecast_devices selected_devices future duration = Py.Ok results.
Proof.
  assert (Hidx : forall device l i, In device l ->
                   exists j, index_of device l i = Some j).
  { intros device l. induction l as [|c l IH]; intros i Hin; simpl.
    - destruct Hin.
    - destruct (Py.str_eqb device c) eqn:E; [eexists; reflexivity|].
      destruct Hin as [->|Hin]; [|apply IH; exact Hin].
      assert (Py.str_eqb device device = true) by (apply Py.str_eqb_eq; reflexivity).
      congruence. }
  induction selected_devices as [|device rest IH]; intro Hsel; simpl.
  - eexists. reflexivity.
  - destruct (Hidx device classes 0%Z) as [j Hj]; [apply Hsel; left; reflexivity|].
    unfold le_transform. rewrite Hj. simpl.
    destruct IH as [res Hres]; [intros d Hd; apply Hsel; right; exact Hd|].
    rewrite Hres. simpl. eexists. reflexivity.
Qed.

(** The parts of a completed run, read off [run_forecast]. *)
Lemma run_forecast_inv (selected_devices : list Py.str)
    (days duration start_date : Z) (out : Output) :
  run_forecast selected_devices days duration start_date = Py.Ok out ->
  let future := date_range start_date (Z.to_nat (24 * days)) in
  exists results,
    forecast_devices selected_devices future duration = Py.Ok results
    /\ results <> []
    /\ final out = concat results
    /\ summary out = groupby_sum Py.str_compare Appliance (final out)
    /\ daily_summary out
       = groupby_sum Z.compare (fun r => ts_date (timestamp r)) (final out)
    /\ Pd.idxmin (column sum_Cost_usd (daily_summary out)) = Py.Ok (best_day out)
    /\ Pd.idxmax (column sum_Cost_usd (daily_summary out)) = Py.Ok (worst_day out)
    /\ Pd.idxmax (column sum_Cost_usd (summary out)) = Py.Ok (top_cost_appliance out)
    /\ Pd.idxmax (column sum_CO2_kg (summary out)) = Py.Ok (top_co2_appliance out).
Proof.
  unfold run_forecast. cbv zeta.
  destruct (forecast_devices _ _ _) as [results|e]; simpl; [|discriminate].
  destruct results as [|fr results]; simpl; [discriminate|].
  destruct (Pd.idxmin _) as [bd|e] eqn:E1; simpl; [|discriminate].
  destruct (Pd.idxmax (column sum_Cost_usd (groupby_sum Z.compare _ _)))
    as [wd|e] eqn:E2; simpl; [|discriminate].
  destruct (Pd.idxmax (column sum_Cost_usd (groupby_sum Py.str_compare _ _)))
    as [tc|e] eqn:E3; simpl; [|discriminate].
  destruct (Pd.idxmax (column sum_CO2_kg _)) as [tk|e] eqn:E4; simpl; [|discriminate].
  intros [= <-]. simpl. exists (fr :: results).
  repeat split; try assumption; try reflexivity. discriminate.
Qed.

(** Every row of [final] is a row of the frame of a selected appliance
    at an hour of the forecast window. *)
Lemma final_rows (selected_devices : list Py.str)
    (days duration start_date : Z) (out : Output) (r : Row) :
  run_forecast selected_devices days duration start_date = Py.Ok out ->
  In r (final out) ->
  exists device dev_id t,
    In device selected_devices
    /\ le_transform device = Py.Ok dev_id
    /\ In t (date_range start_date (Z.to_nat (24 * days)))
    /\ r = {| hour := ts_hour t;
              day := Calendar.day_of_month (ts_date t);
              weekday := Calendar.weekday (ts_date t);
              node_encoded := dev_id;
              timestamp := t;
              Watts := reg_predict (ts_hour t) (Calendar.day_of_month (ts_date t))
                         (Calendar.weekday (ts_date t)) dev_id;
              Energy_kWh :=
                (reg_predict (ts_hour t) (Calendar.day_of_month (ts_date t))
                   (Calendar.weekday (ts_date t)) dev_id
                 * float_of_int duration) / 1000;
              CO2_kg :=
                (reg_predict (ts_hour t) (Calendar.day_of_month (ts_date t))
                   (Calendar.weekday (ts_date t)) dev_id
                 * float_of_int duration) / 1000 * CO2_FACTOR;
              Cost_usd :=
                (reg_predict (ts_hour t) (Calendar.day_of_month (ts_date t))
                   (Calendar.weekday (ts_date t)) dev_id
                 * float_of_int duration) / 1000 * tariff (ts_hour t);
              Appliance := device |}.
Proof.
  intros Hrun Hr.
  destruct (run_forecast_inv _ _ _ _ _ Hrun) as [results [Hres [_ [Hfin _]]]].
  rewrite Hfin in Hr.
  destruct (forecast_devices_rows _ _ _ _ Hres) as [_ Hrows].
  destruct (Hrows r Hr) as [device [dev_id [H1 [H2 H3]]]].
  unfold device_frame in H3. apply in_map_iff in H3.
  destruct H3 as [t [Ht Hin]].
  exists device, dev_id, t. repeat split; auto.
Qed.

End Forecast.

(** *** Timestamps of the window *)

Lemma date_range_In (start_date : Z) (periods : nat) (t : Timestamp) :
  In t (date_range start_date periods)
  <-> exists i, (i < periods)%nat
                /\ t = {| ts_date := start_date + Z.of_nat i / 24;
                          ts_hour := Z.of_nat i mod 24 |}.
Proof.
  unfold date_range. rewrite in_map_iff. split.
  - intros [i [<- Hi]]. apply in_seq in Hi. exists i. split; [lia|reflexivity].
  - intros [i [Hi ->]]. exists i. split; [reflexivity|]. apply in_seq. lia.
Qed.

Lemma date_range_hour (start_date : Z) (periods : nat) (t : Timestamp) :
  In t (date_range start_date periods) -> (0 <= ts_hour t < 24)%Z.
Proof.
  intro H. apply date_range_In in H. destruct H as [i [_ ->]]. simpl.
  apply Z.mod_pos_bound. lia.
Qed.

(** *** Aggregates *)

Lemma fold_acc_row (rows : list Row) :
  forall a,
    fold_left acc_row rows a
    = {| acc_Energy_kWh :=
           fold_left Pd.kahan_add (map Energy_kWh rows) (acc_Energy_kWh a);
         acc_CO2_kg := fold_left Pd.kahan_add (map CO2_kg rows) (acc_CO2_kg a);
         acc_Cost_usd :=
           fold_left Pd.kahan_add (map Cost_usd rows) (acc_Cost_usd a) |}.
Proof.
  induction rows as [|r rows IH]; intro a; simpl.
  - destruct a; reflexivity.
  - rewrite IH. reflexivity.
Qed.

Lemma acc_sums_fold (rows : list Row) :
  acc_sums (fold_left acc_row rows acc0) = sums_of rows.
Proof. rewrite fold_acc_row. reflexivity. Qed.

Section Aggregates.

Context {K : Type}.
Variable kcmp : K -> K -> comparison.
Variable key : Row -> K.
Hypothesis kcmp_eq : forall k k', kcmp k k' = Eq <-> k = k'.

(** An entry of a grouped sum is the sum over exactly the rows of its
    key; a key has an entry as soon as it has a row. *)
Lemma In_groupby_sum (k : K) (s : Sums) (rows : list Row) :
  In (k, s) (groupby_sum kcmp key rows)
  <-> Pd.group_rows kcmp key k rows <> []
      /\ s = sums_of (Pd.group_rows kcmp key k rows).
Proof.
  unfold groupby_sum. rewrite in_map_iff. split.
  - intros [[k' a] [E H]]. simpl in E. injection E as -> <-.
    apply (Pd.In_groupby kcmp key acc0 acc_row kcmp_eq) in H.
    destruct H as [Hne ->]. split; [exact Hne|]. apply acc_sums_fold.
  - intros [Hne ->].
    exists (k, fold_left acc_row (Pd.group_rows kcmp key k rows) acc0).
    split; [simpl; rewrite acc_sums_fold; reflexivity|].
    apply (Pd.In_groupby kcmp key acc0 acc_row kcmp_eq). split; [exact Hne|reflexivity].
Qed.

Lemma NoDup_groupby_sum (rows : list Row) :
  NoDup (map fst (groupby_sum kcmp key rows)).
Proof.
  unfold groupby_sum. rewrite map_map. simpl.
  apply (Pd.NoDup_groupby kcmp key acc0 acc_row kcmp_eq).
Qed.

Lemma groupby_sum_unique (k : K) (s s' : Sums) (rows : list Row) :
  In (k, s) (groupby_sum kcmp key rows) ->
  In (k, s') (groupby_sum kcmp key rows) -> s = s'.
Proof.
  intros H H'. apply In_groupby_sum in H, H'.
  destruct H as [_ ->], H' as [_ ->]. reflexivity.
Qed.

End Aggregates.

Lemma column_In {K} (col : Sums -> float) (t : list (K * Sums)) (k : K) (v : float) :
  In (k, v) (column col t) <-> exists s, In (k, s) t /\ v = col s.
Proof.
  unfold column. rewrite in_map_iff. split.
  - intros [[k' s] [E H]]. simpl in E. injection E as -> <-. exists s. auto.
  - intros [s [H ->]]. exists (k, s). auto.
Qed.

Lemma column_values {K} (col : Sums -> float) (t : list (K * Sums)) :
  map snd (column col t) = map (fun p => col (snd p)) t.
Proof. unfold column. rewrite map_map. reflexivity. Qed.

(** *** Rows of a completed run *)

Lemma tariff_rates_differ : TARIFF_NIGHT <> TARIFF_DAY.
Proof.
  intro H. apply (f_equal (fun x => x <=? 0.1)) in H. vm_compute in H. discriminate.
Qed.

Lemma tariff_night (h : Z) :
  (0 <= h < 24)%Z ->
  (tariff h = TARIFF_NIGHT <-> (22 <= h < 24 \/ 0 <= h < 6)%Z).
Proof.
  intro Hh. unfold tariff.
  destruct (22 <=? h)%Z eqn:E1; destruct (h <? 6)%Z eqn:E2; simpl;
    try apply Z.leb_le in E1; try apply Z.leb_gt in E1;
    try apply Z.ltb_lt in E2; try apply Z.ltb_ge in E2;
    split; intro H; try reflexivity; try lia.
  symmetry in H. apply tariff_rates_differ in H. destruct H.
Qed.

Lemma tariff_day (h : Z) :
  (0 <= h < 24)%Z -> (tariff h = TARIFF_DAY <-> (6 <= h < 22)%Z).
Proof.
  intro Hh. unfold tariff.
  destruct (22 <=? h)%Z eqn:E1; destruct (h <? 6)%Z eqn:E2; simpl;
    try apply Z.leb_le in E1; try apply Z.leb_gt in E1;
    try apply Z.ltb_lt in E2; try apply Z.ltb_ge in E2;
    split; intro H; try reflexivity; try lia;
    apply tariff_rates_differ in H; destruct H.
Qed.

(** The rows of one appliance, in row order. *)
Definition appliance_rows (a : Py.str) (rows : list Row) : list Row :=
  filter (fun r => Py.str_eqb (Appliance r) a) rows.

(** The rows of one calendar day, in row order. *)
Definition day_rows (d : Z) (rows : list Row) : list Row :=
  filter (fun r => (ts_date (timestamp r) =? d)%Z) rows.

Lemma day_rows_group (d : Z) (rows : list Row) :
  Pd.group_rows Z.compare (fun r => ts_date (timestamp r)) d rows = day_rows d rows.
Proof.
  unfold Pd.group_rows, day_rows. apply filter_ext. intro r.
  unfold Pd.keqb. rewrite Z.eqb_compare. reflexivity.
Qed.

Section Runs.

Variable reg_predict : Z -> Z -> Z -> Z -> float.
Variable classes : list Py.str.
Variable selected_devices : list Py.str.
Variables days duration start_date : Z.
Variable out : Output.
Hypothesis Hrun :
  run_forecast reg_predict classes selected_devices days duration start_date
  = Py.Ok out.

Lemma selected_nonempty : selected_devices <> [].
Proof.
  destruct (run_forecast_inv _ _ _ _ _ _ _ Hrun) as [results [Hres [Hne _]]].
  apply forecast_devices_rows in Hres. destruct Hres as [Hlen _].
  intros ->. destruct results; [congruence|discriminate].
Qed.

Lemma final_dates (r : Row) :
  In r (final out) ->
  (start_date <= ts_date (timestamp r) < start_date + days)%Z.
Proof.
  intro Hr.
  destruct (final_rows _ _ _ _ _ _ _ _ Hrun Hr)
    as [device [dev_id [t [_ [_ [Ht ->]]]]]]. simpl.
  apply date_range_In in Ht. destruct Ht as [i [Hi ->]]. simpl.
  assert (0 <= Z.of_nat i / 24)%Z by (apply Z.div_pos; lia).
  assert (Z.of_nat i / 24 < days)%Z; [|lia].
  apply Z.div_lt_upper_bound; lia.
Qed.

(** Every selected appliance has a row at every day of the window. *)
Lemma final_has_row (device : Py.str) (d : Z) :
  In device selected_devices ->
  (start_date <= d < start_date + days)%Z ->
  exists r, In r (final out)
            /\ Appliance r = device /\ ts_date (timestamp r) = d.
Proof.
  intros Hdev Hd.
  destruct (run_forecast_inv _ _ _ _ _ _ _ Hrun) as [results [Hres [_ [Hfin _]]]].
  destruct (forecast_devices_frames _ _ _ _ _ _ device Hres Hdev)
    as [dev_id [_ Hincl]].
  set (t := {| ts_date := d; ts_hour := 0 |}).
  assert (Ht : In t (date_range start_date (Z.to_nat (24 * days)))).
  { apply date_range_In. exists (Z.to_nat (24 * (d - start_date))).
    split; [lia|]. rewrite Z2Nat.id by lia. unfold t. f_equal.
    - rewrite Z.mul_comm, Z.div_mul by lia. lia.
    - rewrite Z.mul_comm, Z.mod_mul by lia. reflexivity. }
  eexists. split; [|split].
  - rewrite Hfin. apply Hincl. unfold device_frame.
    apply in_map_iff. exists t. split; [reflexivity|exact Ht].
  - reflexivity.
  - reflexivity.
Qed.

Lemma final_has_row_any : exists r, In r (final out).
Proof.
  destruct (run_forecast_inv _ _ _ _ _ _ _ Hrun)
    as [results [_ [_ [_ [_ [Hdaily [Hbest _]]]]]]].
  unfold Pd.idxmin, Pd.nanargmin in Hbest.
  destruct (daily_summary out) as [|[d s] ds] eqn:E; [discriminate|].
  assert (H : In (d, s) ((d, s) :: ds)) by (left; reflexivity).
  rewrite Hdaily in H.
  apply (In_groupby_sum _ _ Z.compare_eq_iff) in H. destruct H as [Hne _].
  apply (Pd.group_rows_nonempty _ _ Z.compare_eq_iff) in Hne.
  destruct Hne as [r [Hr _]]. exists r. exact Hr.
Qed.

Lemma daily_summary_days (d : Z) :
  In d (map fst (daily_summary out))
  <-> (start_date <= d < start_date + days)%Z.
Proof.
  destruct (run_forecast_inv _ _ _ _ _ _ _ Hrun)
    as [results [_ [_ [_ [_ [Hdaily _]]]]]].
  rewrite Hdaily. split.
  - intro H. apply in_map_iff in H. destruct H as [[d' s] [E H]].
    simpl in E. subst d'.
    apply (In_groupby_sum _ _ Z.compare_eq_iff) in H. destruct H as [Hne _].
    apply (Pd.group_rows_nonempty _ _ Z.compare_eq_iff) in Hne.
    destruct Hne as [r [Hr <-]]. apply final_dates. exact Hr.
  - intro Hd.
    pose proof selected_nonempty as Hne.
    assert (Hdev : exists device, In device selected_devices).
    { clear Hrun. destruct selected_devices as [|device rest]; [congruence|].
      exists device. left. reflexivity. }
    destruct Hdev as [device Hdev].
    destruct (final_has_row device d Hdev Hd) as [r [Hr [_ Hdate]]].
    apply in_map_iff.
    exists (d, sums_of (Pd.group_rows Z.compare
                          (fun r => ts_date (timestamp r)) d (final out))).
    split; [reflexivity|].
    apply (In_groupby_sum _ _ Z.compare_eq_iff). split; [|reflexivity].
    apply (Pd.group_rows_nonempty _ _ Z.compare_eq_iff). exists r. auto.
Qed.

Lemma daily_summary_entry (d : Z) (s : Sums) :
  In (d, s) (daily_summary out) ->
  s = sums_of (day_rows d (final out)).
Proof.
  destruct (run_forecast_inv _ _ _ _ _ _ _ Hrun)
    as [results [_ [_ [_ [_ [Hdaily _]]]]]].
  rewrite Hdaily. intro H.
  apply (In_groupby_sum _ _ Z.compare_eq_iff) in H. destruct H as [_ ->].
  rewrite day_rows_group. reflexivity.
Qed.

End Runs.

(** *** Sample runs

    Two appliances, [Dryer] (class 0) and [Fridge] (class 1), forecast over
    three days from 2022-09-24 with three usage hours per day. *)

Definition Dryer : Py.str := Py.of_string "Dryer".
Definition Fridge : Py.str := Py.of_string "Fridge".
Definition sample_classes : list Py.str := [Dryer; Fridge].

(** A model that predicts 1000 W everywhere. *)
Definition constant_1000 : Z -> Z -> Z -> Z -> float := fun _ _ _ _ => 1000.

(** The dryer draws 400 W in the day hours, the fridge 1000 W at night. *)
Definition split_load (h d wd n : Z) : float :=
  if ((22 <=? h)%Z || (h <? 6)%Z)%bool
  then (if (n =? 0)%Z then 0 else 1000)
  else (if (n =? 0)%Z then 400 else 0).

(** Finite predictions whose energy overflows: on the 24th the dryer is
    predicted 1e308 W at 10:00 and -1e308 W at 11:00, and 100 W otherwise. *)
Definition overflow_load (h d wd n : Z) : float :=
  if ((n =? 0)%Z && (d =? 24)%Z)%bool
  then (if (h =? 10)%Z then 1e308 else if (h =? 11)%Z then -1e308 else 100)
  else 100.

Definition empty_output : Output :=
  {| final := []; summary := []; daily_summary := [];
     best_day := 0; worst_day := 0;
     top_cost_appliance := []; top_co2_appliance := [] |}.

Definition completed (run : Py.result Output) : Output :=
  match run with Py.Ok out => out | Py.Raise _ => empty_output end.

Definition constant_out : Output :=
  Eval vm_compute in
    completed (run_forecast constant_1000 sample_classes [Fridge] 3 3
                 Calendar.date_2022_09_24).

Definition split_out : Output :=
  Eval vm_compute in
    completed (run_forecast split_load sample_classes [Fridge; Dryer] 3 3
                 Calendar.date_2022_09_24).

Definition overflow_out : Output :=
  Eval vm_compute in
    completed (run_forecast overflow_load sample_classes [Fridge; Dryer] 3 3
                 Calendar.date_2022_09_24).

Lemma constant_run :
  run_forecast constant_1000 sample_classes [Fridge] 3 3 Calendar.date_2022_09_24
  = Py.Ok constant_out.
Proof. vm_compute. reflexivity. Qed.

Lemma split_run :
  run_forecast split_load sample_classes [Fridge; Dryer] 3 3 Calendar.date_2022_09_24
  = Py.Ok split_out.
Proof. vm_compute. reflexivity. Qed.

Lemma overflow_run :
  run_forecast overflow_load sample_classes [Fridge; Dryer] 3 3
    Calendar.date_2022_09_24
  = Py.Ok overflow_out.
Proof. vm_compute. reflexivity. Qed.

(** The row of the fridge at 23:00 of the first day. *)
Definition fridge_row_23 : Row :=
  {| hour := 23; day := 24; weekday := 5; node_encoded := 1;
     timestamp := {| ts_date := Calendar.date_2022_09_24; ts_hour := 23 |};
     Watts := 1000;
     Energy_kWh := 3;
     CO2_kg := 1.4249999999999998;
     Cost_usd := 0.27;
     Appliance := Fridge |}.

Lemma fridge_row_23_final : In fridge_row_23 (final constant_out).
Proof. apply (nth_error_In _ 23). vm_compute. reflexivity. Qed.

(** X11.  The frames, the aggregates and the recommendations (lines 26 to
    88) are computed without an exception as soon as an appliance is
    selected, every selected appliance is a class of the encoder, the window
    has a day, and no summed cost per day, summed cost per appliance or
    summed emission per appliance is NaN.  The charts drawn afterwards are
    not covered. *)
Lemma run_forecast_total reg_predict classes selected_devices days duration start_date :
  selected_devices <> [] ->
  (forall device, In device selected_devices -> In device classes) ->
  (0 < days)%Z ->
  (forall results,
      forecast_devices reg_predict classes selected_devices
        (date_range start_date (Z.to_nat (24 * days))) duration = Py.Ok results ->
      Pd.no_nan (map (fun p => sum_Cost_usd (snd p))
                   (groupby_sum Z.compare (fun r => ts_date (timestamp r))
                      (concat results))) = true
      /\ Pd.no_nan (map (fun p => sum_Cost_usd (snd p))
                      (groupby_sum Py.str_compare Appliance (concat results))) = true
      /\ Pd.no_nan (map (fun p => sum_CO2_kg (snd p))
                      (groupby_sum Py.str_compare Appliance (concat results))) = true) ->
  exists out,
    run_forecast reg_predict classes selected_devices days duration start_date
    = Py.Ok out.
Proof.
  intros Hne Hsel Hdays Hnan. unfold run_forecast. cbv zeta.
  destruct (forecast_devices_total reg_predict classes selected_devices
              (date_range start_date (Z.to_nat (24 * days))) duration Hsel)
    as [results Hres].
  rewrite Hres. simpl.
  destruct (Hnan results Hres) as [H1 [H2 H3]].
  pose proof (forecast_devices_rows _ _ _ _ _ _ Hres) as [Hlen _].
  destruct (forecast_devices_frames _ _ _ _ _ _ (hd [] selected_devices) Hres)
    as [dev_id [_ Hincl]].
  { destruct selected_devices; [congruence|left; reflexivity]. }
  assert (Hrow : exists r, In r (concat results)).
  { eexists. apply Hincl. unfold device_frame. apply in_map_iff.
    exists {| ts_date := start_date; ts_hour := 0 |}. split; [reflexivity|].
    apply date_range_In. exists 0%nat. split; [lia|]. simpl.
    rewrite Z.add_0_r. reflexivity. }
  destruct results as [|fr results]; [destruct selected_devices; [congruence|discriminate]|].
  change (pd_concat (fr :: results)) with (Py.Ok (concat (fr :: results))).
  unfold Py.bind at 1. cbv beta iota.
  set (rows := concat (fr :: results)) in *.
  destruct Hrow as [r Hr].
  assert (Hd : groupby_sum Z.compare (fun r => ts_date (timestamp r)) rows <> []).
  { intro E.
    assert (In (ts_date (timestamp r), sums_of (Pd.group_rows Z.compare
              (fun r => ts_date (timestamp r)) (ts_date (timestamp r)) rows))
              (groupby_sum Z.compare (fun r => ts_date (timestamp r)) rows)).
    { apply (In_groupby_sum _ _ Z.compare_eq_iff). split; [|reflexivity].
      apply (Pd.group_rows_nonempty _ _ Z.compare_eq_iff). exists r. auto. }
    rewrite E in H. destruct H. }
  assert (Ha : groupby_sum Py.str_compare Appliance rows <> []).
  { intro E.
    assert (In (Appliance r, sums_of (Pd.group_rows Py.str_compare
              Appliance (Appliance r) rows))
              (groupby_sum Py.str_compare Appliance rows)).
    { apply (In_groupby_sum _ _ Py.str_compare_eq). split; [|reflexivity].
      apply (Pd.group_rows_nonempty _ _ Py.str_compare_eq). exists r. auto. }
    rewrite E in H. destruct H. }
  assert (Hcol : forall K (col : Sums -> float) (t : list (K * Sums)),
             t <> [] -> column col t <> []).
  { intros K col t Ht E. destruct t; [congruence|discriminate]. }
  destruct (Pd.idxmin_total (column sum_Cost_usd
              (groupby_sum Z.compare (fun r => ts_date (timestamp r)) rows)))
    as [bd ->]; [apply Hcol, Hd|rewrite column_values; exact H1|].
  destruct (Pd.idxmax_total (column sum_Cost_usd
              (groupby_sum Z.compare (fun r => ts_date (timestamp r)) rows)))
    as [wd ->]; [apply Hcol, Hd|rewrite column_values; exact H1|].
  destruct (Pd.idxmax_total (column sum_Cost_usd
              (groupby_sum Py.str_compare Appliance rows)))
    as [tc ->]; [apply Hcol, Ha|rewrite column_values; exact H2|].
  destruct (Pd.idxmax_total (column sum_CO2_kg
              (groupby_sum Py.str_compare Appliance rows)))
    as [tk ->]; [apply Hcol, Ha|rewrite column_values; exact H3|].
  simpl. eexists. reflexivity.
Qed.

(** *** The derived columns *)

(** C1.  In every row of a completed forecast the hour lies in [0,24) and
    the cost is the energy times the rate of that hour; the rate is the night
    rate 0.09 exactly when the hour is in [22,24) or [0,6), and the day rate
    0.15 exactly when it is in [6,22). *)
Theorem tariff_by_hour reg_predict classes selected_devices days duration start_date
    (out : Output) (r : Row) :
  run_forecast reg_predict classes selected_devices days duration start_date
  = Py.Ok out ->
  In r (final out) ->
  (0 <= hour r < 24)%Z
  /\ Cost_usd r = Energy_kWh r * tariff (hour r)
  /\ (tariff (hour r) = 0.09 <-> (22 <= hour r < 24 \/ 0 <= hour r < 6)%Z)
  /\ (tariff (hour r) = 0.15 <-> (6 <= hour r < 22)%Z).
Proof.
  intros Hrun Hr.
  destruct (final_rows _ _ _ _ _ _ _ _ Hrun Hr)
    as [device [dev_id [t [_ [_ [Ht ->]]]]]]. simpl.
  pose proof (date_range_hour _ _ _ Ht) as Hh.
  split; [exact Hh|]. split; [reflexivity|]. split.
  - apply (tariff_night _ Hh).
  - apply (tariff_day _ Hh).
Qed.

Lemma tariff_by_hour_witness :
  (0 <= hour fridge_row_23 < 24)%Z
  /\ Cost_usd fridge_row_23 = Energy_kWh fridge_row_23 * tariff (hour fridge_row_23)
  /\ (tariff (hour fridge_row_23) = 0.09
      <-> (22 <= hour fridge_row_23 < 24 \/ 0 <= hour fridge_row_23 < 6)%Z)
  /\ (tariff (hour fridge_row_23) = 0.15 <-> (6 <= hour fridge_row_23 < 22)%Z).
Proof.
  apply (tariff_by_hour constant_1000 sample_classes [Fridge] 3 3
           Calendar.date_2022_09_24 constant_out fridge_row_23).
  - exact constant_run.
  - exact fridge_row_23_final.
Defined.

(** C2.  In every row of a completed forecast the watts are the prediction
    of the regression model for the features of the row, and the energy is
    that value times the usage hours, divided by 1000. *)
Theorem energy_formula reg_predict classes selected_devices days duration start_date
    (out : Output) (r : Row) :
  run_forecast reg_predict classes selected_devices days duration start_date
  = Py.Ok out ->
  In r (final out) ->
  Watts r = reg_predict (hour r) (day r) (weekday r) (node_encoded r)
  /\ Energy_kWh r = (Watts r * float_of_int duration) / 1000.
Proof.
  intros Hrun Hr.
  destruct (final_rows _ _ _ _ _ _ _ _ Hrun Hr)
    as [device [dev_id [t [_ [_ [_ ->]]]]]]. simpl.
  split; reflexivity.
Qed.

Lemma energy_formula_witness :
  Watts fridge_row_23
  = constant_1000 (hour fridge_row_23) (day fridge_row_23) (weekday fridge_row_23)
      (node_encoded fridge_row_23)
  /\ Energy_kWh fridge_row_23 = (Watts fridge_row_23 * float_of_int 3) / 1000.
Proof.
  apply (energy_formula constant_1000 sample_classes [Fridge] 3 3
           Calendar.date_2022_09_24 constant_out fridge_row_23).
  - exact constant_run.
  - exact fridge_row_23_final.
Defined.

(** C3.  In every row of a completed forecast the emissions are the energy
    times 0.475. *)
Theorem co2_formula reg_predict classes selected_devices days duration start_date
    (out : Output) (r : Row) :
  run_forecast reg_predict classes selected_devices days duration start_date
  = Py.Ok out ->
  In r (final out) ->
  CO2_kg r = Energy_kWh r * 0.475.
Proof.
  intros Hrun Hr.
  destruct (final_rows _ _ _ _ _ _ _ _ Hrun Hr)
    as [device [dev_id [t [_ [_ [_ ->]]]]]]. simpl.
  reflexivity.
Qed.

Lemma co2_formula_witness :
  CO2_kg fridge_row_23 = Energy_kWh fridge_row_23 * 0.475.
Proof.
  apply (co2_formula constant_1000 sample_classes [Fridge] 3 3
           Calendar.date_2022_09_24 constant_out fridge_row_23).
  - exact constant_run.
  - exact fridge_row_23_final.
Defined.

(** C6, as the code computes it.  With three usage hours, a row predicted
    1000 W at 23:00 has energy 3.0, the night rate 0.09, cost 0.27 and
    emissions 1.4249999999999998: the binary64 product of 3.0 and 0.475 is
    the float just below 1.425. *)
Theorem worked_example (device : Py.str) (dev_id date : Z) :
  map (fun r => (hour r, Watts r, Energy_kWh r, tariff (hour r), Cost_usd r, CO2_kg r))
      (device_frame constant_1000 device dev_id
         [{| ts_date := date; ts_hour := 23 |}] 3)
  = [(23%Z, 1000, 3, 0.09, 0.27, 1.4249999999999998)]
  /\ next_up 1.4249999999999998 = 1.425.
Proof. split; reflexivity. Qed.

(** C6, as stated: the emissions of that row are not the float 1.425. *)
Lemma worked_example_co2_differs :
  exists r,
    device_frame constant_1000 Fridge 1
      [{| ts_date := Calendar.date_2022_09_24; ts_hour := 23 |}] 3 = [r]
    /\ Watts r = 1000 /\ hour r = 23%Z
    /\ (CO2_kg r =? 1.425) = false.
Proof. eexists. repeat split. Qed.

(** *** Aggregates and recommendations *)

(** *** Group sums of whole numbers

    The compensated sum is checked exhaustively on whole numbers: for a
    running sum [a] and a value [b] between -500 and 500 whose sum stays
    in that range, one step of [Pd.kahan_add] from the accumulator of [a]
    gives the accumulator of [a + b], with no compensation left. *)















(** The summed costs of the days, in index order. *)
Definition daily_costs (out : Output) : list float :=
  map (fun p => sum_Cost_usd (snd p)) (daily_summary out).

(** C4, for the runs in which no day's summed cost is NaN.  The daily
    summary has one entry per calendar day of the window, the sums over the
    rows of that day for all selected appliances; the summed cost of
    [best_day] is at most, and that of [worst_day] at least, the summed cost
    of every day of the window. *)
Theorem best_worst_day reg_predict classes selected_devices days duration start_date
    (out : Output) :
  run_forecast reg_predict classes selected_devices days duration start_date
  = Py.Ok out ->
  Pd.no_nan (daily_costs out) = true ->
  exists sb sw,
    In (best_day out, sb) (daily_summary out)
    /\ In (worst_day out, sw) (daily_summary out)
    /\ forall d, (start_date <= d < start_date + days)%Z ->
         exists s,
           In (d, s) (daily_summary out)
           /\ s = sums_of (day_rows d (final out))
           /\ (sum_Cost_usd sb <=? sum_Cost_usd s) = true
           /\ (sum_Cost_usd s <=? sum_Cost_usd sw) = true.
Proof.
  intros Hrun Hnan. unfold daily_costs in Hnan.
  destruct (run_forecast_inv _ _ _ _ _ _ _ Hrun)
    as [results [_ [_ [_ [_ [_ [Hbest [Hworst _]]]]]]]].
  rewrite <- (column_values sum_Cost_usd) in Hnan.
  destruct (Pd.idxmin_least _ _ Hnan Hbest) as [vb [Hvb Hleast]].
  destruct (Pd.idxmax_greatest _ _ Hnan Hworst) as [vw [Hvw Hgreatest]].
  apply column_In in Hvb, Hvw.
  destruct Hvb as [sb [Hsb ->]], Hvw as [sw [Hsw ->]].
  exists sb, sw. split; [exact Hsb|]. split; [exact Hsw|].
  intros d Hd.
  apply (daily_summary_days _ _ _ _ _ _ _ Hrun) in Hd.
  apply in_map_iff in Hd. destruct Hd as [[d' s] [E Hs]]. simpl in E. subst d'.
  exists s. split; [exact Hs|]. split.
  - apply (daily_summary_entry _ _ _ _ _ _ _ Hrun). exact Hs.
  - split.
    + apply (Hleast d). apply column_In. exists s. auto.
    + apply (Hgreatest d). apply column_In. exists s. auto.
Qed.

Lemma best_worst_day_witness :
  exists sb sw,
    In (best_day split_out, sb) (daily_summary split_out)
    /\ In (worst_day split_out, sw) (daily_summary split_out)
    /\ forall d, (Calendar.date_2022_09_24 <= d < Calendar.date_2022_09_24 + 3)%Z ->
         exists s,
           In (d, s) (daily_summary split_out)
           /\ s = sums_of (day_rows d (final split_out))
           /\ (sum_Cost_usd sb <=? sum_Cost_usd s) = true
           /\ (sum_Cost_usd s <=? sum_Cost_usd sw) = true.
Proof.
  apply (best_worst_day split_load sample_classes [Fridge; Dryer] 3 3
           Calendar.date_2022_09_24 split_out).
  - exact split_run.
  - vm_compute. reflexivity.
Defined.

(** C4, as stated for every run.  In the run [overflow_out] the energies of
    the dryer at 10:00 and 11:00 of the first day are the two infinities, the
    summed cost of that day is NaN, and the cost of [best_day] is not below or
    equal to it. *)
Lemma best_day_not_below_nan_day :
  run_forecast overflow_load sample_classes [Fridge; Dryer] 3 3
    Calendar.date_2022_09_24 = Py.Ok overflow_out
  /\ exists sb s,
       In (best_day overflow_out, sb) (daily_summary overflow_out)
       /\ In (Calendar.date_2022_09_24, s) (daily_summary overflow_out)
       /\ is_nan (sum_Cost_usd s) = true
       /\ (sum_Cost_usd sb <=? sum_Cost_usd s) = false.
Proof.
  split; [exact overflow_run|].
  exists (snd (nth 1 (daily_summary overflow_out) (0%Z, sums_of []))).
  exists (snd (nth 0 (daily_summary overflow_out) (0%Z, sums_of []))).
  split; [vm_compute; right; left; reflexivity|].
  split; [vm_compute; left; reflexivity|].
  split; vm_compute; reflexivity.
Qed.

(** [a] is a top contributor for the column [col]: no entry of the summary
    has a strictly greater total, and when no total is NaN every total is at
    most the one of [a]. *)
Definition top_of (col : Sums -> float) (t : list (Py.str * Sums)) (a : Py.str) : Prop :=
  exists s,
    In (a, s) t
    /\ (forall a' s', In (a', s') t -> (col s <? col s') = false)
    /\ (Pd.no_nan (map (fun p => col (snd p)) t) = true ->
        forall a' s', In (a', s') t -> (col s' <=? col s) = true).

Lemma idxmax_top_of (col : Sums -> float) (t : list (Py.str * Sums)) (a : Py.str) :
  Pd.idxmax (column col t) = Py.Ok a -> top_of col t a.
Proof.
  intro H. destruct (Pd.idxmax_not_exceeded _ _ H) as [v [Hv [Hmax Hge]]].
  apply column_In in Hv. destruct Hv as [s [Hs ->]].
  exists s. split; [exact Hs|]. split.
  - intros a' s' H'. apply (Hmax a'). apply column_In. exists s'. auto.
  - intros Hnan a' s' H'. rewrite <- (column_values col) in Hnan.
    apply (Hge Hnan a'). apply column_In. exists s'. auto.
Qed.

(** [a] has a maximum total for the column [col]: every total of the
    summary is at most the one of [a]. *)
Definition has_maximum (col : Sums -> float) (t : list (Py.str * Sums)) (a : Py.str) : Prop :=
  exists s,
    In (a, s) t
    /\ forall a' s', In (a', s') t -> (col s' <=? col s) = true.

(** The summed costs and the summed emissions of the appliances, in index
    order. *)
Definition appliance_costs (out : Output) : list float :=
  map (fun p => sum_Cost_usd (snd p)) (summary out).

Definition appliance_emissions (out : Output) : list float :=
  map (fun p => sum_CO2_kg (snd p)) (summary out).

(** The dryer is predicted 1e308 W at 10:00 and -1e308 W at 11:00 of the
    24th, the fridge -1e308 W at 12:00 of the 24th, and both 100 W otherwise:
    the dryer's totals are NaN and the fridge's are minus infinity. *)
Definition nan_total_load (h d wd n : Z) : float :=
  if (d =? 24)%Z
  then (if (n =? 0)%Z
        then (if (h =? 10)%Z then 1e308 else if (h =? 11)%Z then -1e308 else 100)
        else (if (h =? 12)%Z then -1e308 else 100))
  else 100.

Definition nan_total_out : Output :=
  Eval vm_compute in
    completed (run_forecast nan_total_load sample_classes [Fridge; Dryer] 3 3
                 Calendar.date_2022_09_24).

Lemma nan_total_run :
  run_forecast nan_total_load sample_classes [Fridge; Dryer] 3 3
    Calendar.date_2022_09_24
  = Py.Ok nan_total_out.
Proof. vm_compute. reflexivity. Qed.

(** C8, for the runs in which no appliance total is NaN.  The biggest cost
    driver is the result of [idxmax] over the summed costs alone, the highest
    carbon impact the result of [idxmax] over the summed emissions alone;
    when no summed cost is NaN the first has a maximum summed cost, and when
    no summed emission is NaN the second has a maximum summed emission.
    There are such runs in which the two are the same appliance and such
    runs in which they differ. *)
Theorem top_contributors :
  (forall reg_predict classes selected_devices days duration start_date out,
      run_forecast reg_predict classes selected_devices days duration start_date
      = Py.Ok out ->
      Pd.idxmax (column sum_Cost_usd (summary out)) = Py.Ok (top_cost_appliance out)
      /\ Pd.idxmax (column sum_CO2_kg (summary out)) = Py.Ok (top_co2_appliance out)
      /\ (Pd.no_nan (appliance_costs out) = true ->
          has_maximum sum_Cost_usd (summary out) (top_cost_appliance out))
      /\ (Pd.no_nan (appliance_emissions out) = true ->
          has_maximum sum_CO2_kg (summary out) (top_co2_appliance out)))
  /\ (exists reg_predict classes selected_devices days duration start_date out,
        run_forecast reg_predict classes selected_devices days duration start_date
        = Py.Ok out
        /\ Pd.no_nan (appliance_costs out) = true
        /\ Pd.no_nan (appliance_emissions out) = true
        /\ top_cost_appliance out = top_co2_appliance out)
  /\ (exists reg_predict classes selected_devices days duration start_date out,
        run_forecast reg_predict classes selected_devices days duration start_date
        = Py.Ok out
        /\ Pd.no_nan (appliance_costs out) = true
        /\ Pd.no_nan (appliance_emissions out) = true
        /\ top_cost_appliance out <> top_co2_appliance out).
Proof.
  split; [|split].
  - intros reg_predict classes selected_devices days duration start_date out Hrun.
    destruct (run_forecast_inv _ _ _ _ _ _ _ Hrun)
      as [results [_ [_ [_ [_ [_ [_ [_ [Hcost Hco2]]]]]]]]].
    split; [exact Hcost|]. split; [exact Hco2|]. split.
    + intro Hnan. destruct (idxmax_top_of _ _ _ Hcost) as [s [Hs [_ Hge]]].
      exists s. split; [exact Hs|]. apply Hge. exact Hnan.
    + intro Hnan. destruct (idxmax_top_of _ _ _ Hco2) as [s [Hs [_ Hge]]].
      exists s. split; [exact Hs|]. apply Hge. exact Hnan.
  - exists constant_1000, sample_classes, [Fridge], 3%Z, 3%Z,
      Calendar.date_2022_09_24, constant_out.
    split; [exact constant_run|]. repeat split.
  - exists split_load, sample_classes, [Fridge; Dryer], 3%Z, 3%Z,
      Calendar.date_2022_09_24, split_out.
    split; [exact split_run|]. split; [reflexivity|]. split; [reflexivity|].
    vm_compute. discriminate.
Qed.

Lemma top_contributors_witness :
  top_cost_appliance split_out = Dryer
  /\ top_co2_appliance split_out = Fridge
  /\ has_maximum sum_Cost_usd (summary split_out) Dryer
  /\ has_maximum sum_CO2_kg (summary split_out) Fridge.
Proof.
  split; [reflexivity|]. split; [reflexivity|].
  destruct top_contributors as [H _].
  destruct (H split_load sample_classes [Fridge; Dryer] 3%Z 3%Z
              Calendar.date_2022_09_24 split_out split_run) as [_ [_ [Hc Hk]]].
  split; [apply Hc; reflexivity|apply Hk; reflexivity].
Defined.

(** C8, as stated for every run.  In the run [nan_total_out] the dryer is
    reported as biggest cost driver and as highest carbon impact; its summed
    cost and its summed emission are NaN, and the fridge's, minus infinity,
    are not below or equal to them. *)
Lemma top_contributor_with_nan_total :
  run_forecast nan_total_load sample_classes [Fridge; Dryer] 3 3
    Calendar.date_2022_09_24 = Py.Ok nan_total_out
  /\ top_cost_appliance nan_total_out = Dryer
  /\ top_co2_appliance nan_total_out = Dryer
  /\ exists sd sf,
       In (Dryer, sd) (summary nan_total_out)
       /\ In (Fridge, sf) (summary nan_total_out)
       /\ is_nan (sum_Cost_usd sd) = true
       /\ is_nan (sum_CO2_kg sd) = true
       /\ sum_Cost_usd sf = neg_infinity
       /\ sum_CO2_kg sf = neg_infinity
       /\ (sum_Cost_usd sf <=? sum_Cost_usd sd) = false
       /\ (sum_CO2_kg sf <=? sum_CO2_kg sd) = false.
Proof.
  split; [exact nan_total_run|]. split; [reflexivity|]. split; [reflexivity|].
  exists (snd (nth 0 (summary nan_total_out) ([], sums_of []))).
  exists (snd (nth 1 (summary nan_total_out) ([], sums_of []))).
  split; [vm_compute; left; reflexivity|].
  split; [vm_compute; right; left; reflexivity|].
  repeat split.
Qed.

(** ** Further properties of the forecast *)

(** *** Refused selections *)

(** X1.  With no appliance selected the run raises [ValueError]: there is
    no frame to concatenate. *)
Theorem run_empty_selection reg_predict classes days duration start_date :
  run_forecast reg_predict classes [] days duration start_date
  = Py.Raise Py.ValueError.
Proof. reflexivity. Qed.

Lemma index_of_Some (device : Py.str) (l : list Py.str) :
  forall i j,
    index_of device l i = Some j ->
    (i <= j < i + Z.of_nat (length l))%Z
    /\ nth_error l (Z.to_nat (j - i)) = Some device.
Proof.
  induction l as [|c l IH]; intros i j; simpl; [discriminate|].
  destruct (Py.str_eqb device c) eqn:E.
  - intros [= <-]. apply Py.str_eqb_eq in E. subst c.
    rewrite Z.sub_diag. simpl. split; [lia|reflexivity].
  - intro H. apply IH in H. destruct H as [Hb Hn]. split; [lia|].
    replace (Z.to_nat (j - i)) with (S (Z.to_nat (j - (i + 1)))) by lia.
    exact Hn.
Qed.

Lemma index_of_None (device : Py.str) (l : list Py.str) :
  forall i, ~ In device l -> index_of device l i = None.
Proof.
  induction l as [|c l IH]; intros i Hn; simpl; [reflexivity|].
  destruct (Py.str_eqb device c) eqn:E.
  - apply Py.str_eqb_eq in E. subst c. exfalso. apply Hn. left. reflexivity.
  - apply IH. intro H. apply Hn. right. exact H.
Qed.

Lemma forecast_devices_unseen reg_predict classes (selected_devices : list Py.str)
    (future : list Timestamp) (duration : Z) (device : Py.str) :
  In device selected_devices ->
  ~ In device classes ->
  forecast_devices reg_predict classes selected_devices future duration
  = Py.Raise Py.ValueError.
Proof.
  intros Hin Hun.
  induction selected_devices as [|dv rest IH]; [destruct Hin|]. simpl.
  unfold le_transform at 1.
  destruct (index_of dv classes 0) as [i|] eqn:E; simpl; [|reflexivity].
  destruct Hin as [->|Hin].
  - rewrite (index_of_None device classes 0%Z Hun) in E. discriminate.
  - rewrite (IH Hin). reflexivity.
Qed.

(** X2.  A selected appliance that is not a class of the label encoder
    makes the run raise [ValueError], whatever else is selected. *)
Theorem run_unseen_device reg_predict classes selected_devices days duration
    start_date (device : Py.str) :
  In device selected_devices ->
  ~ In device classes ->
  run_forecast reg_predict classes selected_devices days duration start_date
  = Py.Raise Py.ValueError.
Proof.
  intros Hin Hun. unfold run_forecast. cbv zeta.
  rewrite (forecast_devices_unseen _ _ _ _ _ device Hin Hun). reflexivity.
Qed.

Lemma run_unseen_device_witness :
  run_forecast constant_1000 sample_classes [Fridge; Py.of_string "Oven"] 3 3
    Calendar.date_2022_09_24
  = Py.Raise Py.ValueError.
Proof.
  apply (run_unseen_device constant_1000 sample_classes
           [Fridge; Py.of_string "Oven"] 3 3 Calendar.date_2022_09_24
           (Py.of_string "Oven")).
  - right. left. reflexivity.
  - intros [H|[H|[]]]; vm_compute in H; discriminate.
Defined.

(** *** The device id of a row *)

(** X3.  In every row of a completed run [node_encoded] is a position of
    [le.classes_], and the class at that position is the appliance of the
    row. *)
Theorem node_encoded_decodes reg_predict classes selected_devices days duration
    start_date (out : Output) (r : Row) :
  run_forecast reg_predict classes selected_devices days duration start_date
  = Py.Ok out ->
  In r (final out) ->
  (0 <= node_encoded r < Z.of_nat (length classes))%Z
  /\ nth_error classes (Z.to_nat (node_encoded r)) = Some (Appliance r).
Proof.
  intros Hrun Hr.
  destruct (final_rows _ _ _ _ _ _ _ _ Hrun Hr)
    as [device [dev_id [t [_ [Hle [_ ->]]]]]]. simpl.
  unfold le_transform in Hle.
  destruct (index_of device classes 0) as [i|] eqn:E; [|discriminate].
  injection Hle as ->. apply index_of_Some in E. destruct E as [Hb Hn].
  rewrite Z.sub_0_r in Hn. split; [lia|exact Hn].
Qed.

Lemma node_encoded_decodes_witness :
  (0 <= node_encoded fridge_row_23 < Z.of_nat (length sample_classes))%Z
  /\ nth_error sample_classes (Z.to_nat (node_encoded fridge_row_23))
     = Some (Appliance fridge_row_23).
Proof.
  apply (node_encoded_decodes constant_1000 sample_classes [Fridge] 3 3
           Calendar.date_2022_09_24 constant_out fridge_row_23).
  - exact constant_run.
  - exact fridge_row_23_final.
Defined.

(** *** The layout of [final] *)

Lemma date_range_length (start_date : Z) (periods : nat) :
  length (date_range start_date periods) = periods.
Proof. unfold date_range. rewrite length_map, length_seq. reflexivity. Qed.

Lemma forecast_devices_length reg_predict classes (selected_devices : list Py.str)
    (future : list Timestamp) (duration : Z) :
  forall results,
    forecast_devices reg_predict classes selected_devices future duration
    = Py.Ok results ->
    length (concat results) = (length selected_devices * length future)%nat.
Proof.
  induction selected_devices as [|device rest IH]; simpl; intros results H.
  - injection H as <-. reflexivity.
  - destruct (le_transform classes device) as [dev_id|e]; simpl in H; [|discriminate].
    destruct (forecast_devices reg_predict classes rest future duration)
      as [res|e]; simpl in H; [|discriminate].
    injection H as <-. simpl. rewrite length_app, (IH res eq_refl).
    unfold device_frame. rewrite length_map. reflexivity.
Qed.

(** X4.  The frame of a completed run has one row per selected appliance
    and hour of the window: [24 * days] rows for each appliance. *)
Theorem final_row_count reg_predict classes selected_devices days duration
    start_date (out : Output) :
  run_forecast reg_predict classes selected_devices days duration start_date
  = Py.Ok out ->
  Z.of_nat (length (final out))
  = (Z.of_nat (length selected_devices) * (24 * days))%Z
  /\ (0 < days)%Z.
Proof.
  intro Hrun.
  destruct (run_forecast_inv _ _ _ _ _ _ _ Hrun) as [results [Hres [_ [Hfin _]]]].
  assert (Hdays : (0 < days)%Z).
  { destruct (final_has_row_any _ _ _ _ _ _ _ Hrun) as [r Hr].
    apply (final_dates _ _ _ _ _ _ _ Hrun) in Hr. lia. }
  split; [|exact Hdays].
  rewrite Hfin, (forecast_devices_length _ _ _ _ _ _ Hres), date_range_length.
  rewrite Nat2Z.inj_mul, Z2Nat.id by lia. reflexivity.
Qed.

Lemma final_row_count_witness :
  Z.of_nat (length (final split_out))
  = (Z.of_nat (length [Fridge; Dryer]) * (24 * 3))%Z
  /\ (0 < 3)%Z.
Proof.
  apply (final_row_count split_load sample_classes [Fridge; Dryer] 3 3
           Calendar.date_2022_09_24 split_out).
  exact split_run.
Defined.

Lemma appliance_rows_frame reg_predict (device a : Py.str) (dev_id : Z)
    (future : list Timestamp) (duration : Z) :
  appliance_rows a (device_frame reg_predict device dev_id future duration)
  = if Py.str_eqb device a
    then device_frame reg_predict device dev_id future duration
    else [].
Proof.
  unfold appliance_rows, device_frame. rewrite filter_map_swap. simpl.
  destruct (Py.str_eqb device a).
  - rewrite filter_true. reflexivity.
  - induction future as [|t future IH]; simpl; [reflexivity|exact IH].
Qed.

Lemma forecast_devices_partition reg_predict classes (selected_devices : list Py.str)
    (future : list Timestamp) (duration : Z) (a : Py.str) :
  forall results,
    forecast_devices reg_predict classes selected_devices future duration
    = Py.Ok results ->
    NoDup selected_devices ->
    (~ In a selected_devices -> appliance_rows a (concat results) = [])
    /\ (In a selected_devices ->
        exists dev_id,
          le_transform classes a = Py.Ok dev_id
          /\ appliance_rows a (concat results)
             = device_frame reg_predict a dev_id future duration).
Proof.
  induction selected_devices as [|device rest IH]; simpl; intros results H Hnd.
  - injection H as <-. split; [reflexivity|intros []].
  - destruct (le_transform classes device) as [dev_id|e] eqn:E;
      simpl in H; [|discriminate].
    destruct (forecast_devices reg_predict classes rest future duration)
      as [res|e]; simpl in H; [|discriminate].
    injection H as <-. inversion Hnd as [|? ? Hnot Hnd']; subst.
    destruct (IH res eq_refl Hnd') as [IHout IHin].
    simpl. unfold appliance_rows in *. rewrite filter_app.
    fold (appliance_rows a (device_frame reg_predict device dev_id future duration)).
    rewrite appliance_rows_frame.
    destruct (Py.str_eqb device a) eqn:Ea.
    + apply Py.str_eqb_eq in Ea. subst a. split.
      * intro Hn. exfalso. apply Hn. left. reflexivity.
      * intros _. exists dev_id. split; [exact E|].
        rewrite (IHout Hnot). apply app_nil_r.
    + assert (Hne : device <> a).
      { intro Heq. apply Py.str_eqb_eq in Heq. congruence. }
      split.
      * intro Hn. simpl. apply IHout. intro Hin. apply Hn. right. exact Hin.
      * intros [Heq|Hin]; [congruence|]. simpl. apply IHin. exact Hin.
Qed.

(** X5.  When the selected appliances are distinct, the rows of [final]
    that carry an appliance are exactly the frame built for it, in hourly
    order: the frames do not mix. *)
Theorem appliance_rows_are_its_frame reg_predict classes selected_devices days
    duration start_date (out : Output) (a : Py.str) :
  run_forecast reg_predict classes selected_devices days duration start_date
  = Py.Ok out ->
  NoDup selected_devices ->
  In a selected_devices ->
  exists dev_id,
    le_transform classes a = Py.Ok dev_id
    /\ appliance_rows a (final out)
       = device_frame reg_predict a dev_id
           (date_range start_date (Z.to_nat (24 * days))) duration.
Proof.
  intros Hrun Hnd Hin.
  destruct (run_forecast_inv _ _ _ _ _ _ _ Hrun) as [results [Hres [_ [Hfin _]]]].
  rewrite Hfin.
  destruct (forecast_devices_partition _ _ _ _ _ a _ Hres Hnd) as [_ H].
  exact (H Hin).
Qed.

Lemma appliance_rows_are_its_frame_witness :
  exists dev_id,
    le_transform sample_classes Dryer = Py.Ok dev_id
    /\ appliance_rows Dryer (final split_out)
       = device_frame split_load Dryer dev_id
           (date_range Calendar.date_2022_09_24 (Z.to_nat (24 * 3))) 3.
Proof.
  apply (appliance_rows_are_its_frame split_load sample_classes [Fridge; Dryer]
           3 3 Calendar.date_2022_09_24 split_out Dryer).
  - exact split_run.
  - repeat constructor; simpl; intuition discriminate.
  - right. left. reflexivity.
Defined.

(** *** Hours of a day *)

Lemma seq_from (k len : nat) : seq k len = map (fun h => (k + h)%nat) (seq 0 len).
Proof.
  revert k. induction len as [|len IH]; intro k; simpl; [reflexivity|].
  rewrite Nat.add_0_r. f_equal.
  rewrite (IH (S k)), <- seq_shift, map_map. apply map_ext. intro h. lia.
Qed.

(** A window of [S n] days is a window of [n] days followed by the 24
    hours of one more day. *)
Lemma date_range_next_day (start_date : Z) (n : nat) :
  date_range start_date (24 * S n)
  = date_range start_date (24 * n)
    ++ map (fun h => {| ts_date := start_date + Z.of_nat n;
                        ts_hour := Z.of_nat h |})
           (seq 0 24).
Proof.
  unfold date_range.
  replace (24 * S n)%nat with (24 * n + 24)%nat by lia.
  rewrite seq_app, map_app. f_equal.
  rewrite (seq_from (0 + 24 * n) 24), map_map.
  apply map_ext_in. intros h Hh. apply in_seq in Hh.
  replace (Z.of_nat (0 + 24 * n + h)) with (Z.of_nat n * 24 + Z.of_nat h)%Z by lia.
  f_equal.
  - rewrite Z.div_add_l by lia. rewrite Z.div_small by lia. lia.
  - rewrite Z.add_comm, Z.mod_add by lia. apply Z.mod_small. lia.
Qed.

Lemma filter_day_block (d e : Z) (hours : list nat) :
  filter (fun t => (ts_date t =? d)%Z)
         (map (fun h => {| ts_date := e; ts_hour := Z.of_nat h |}) hours)
  = if (e =? d)%Z
    then map (fun h => {| ts_date := e; ts_hour := Z.of_nat h |}) hours
    else [].
Proof.
  induction hours as [|h hours IH]; simpl.
  - destruct (e =? d)%Z; reflexivity.
  - rewrite IH. destruct (e =? d)%Z; reflexivity.
Qed.

Lemma date_range_day (start_date d : Z) (n : nat) :
  filter (fun t => (ts_date t =? d)%Z) (date_range start_date (24 * n))
  = if ((start_date <=? d)%Z && (d <? start_date + Z.of_nat n)%Z)%bool
    then map (fun h => {| ts_date := d; ts_hour := Z.of_nat h |}) (seq 0 24)
    else [].
Proof.
  induction n as [|n IH].
  - simpl. destruct (start_date <=? d)%Z eqn:E1; simpl; [|reflexivity].
    destruct (d <? start_date + 0)%Z eqn:E2; [|reflexivity].
    apply Z.leb_le in E1. apply Z.ltb_lt in E2. lia.
  - rewrite date_range_next_day, filter_app, IH, filter_day_block.
    destruct (Z.leb_spec start_date d);
      destruct (Z.ltb_spec d (start_date + Z.of_nat n));
      destruct (Z.ltb_spec d (start_date + Z.of_nat (S n)));
      destruct (Z.eqb_spec (start_date + Z.of_nat n) d); simpl;
      try lia; try reflexivity; try apply app_nil_r.
    subst d. reflexivity.
Qed.

Lemma device_frame_day_hours reg_predict (device : Py.str) (dev_id : Z)
    (start_date d : Z) (n : nat) (duration : Z) :
  (start_date <= d < start_date + Z.of_nat n)%Z ->
  map hour (day_rows d (device_frame reg_predict device dev_id
                          (date_range start_date (24 * n)) duration))
  = map Z.of_nat (seq 0 24).
Proof.
  intro Hd. unfold day_rows, device_frame.
  rewrite filter_map_swap.
  rewrite (filter_ext _ (fun t => (ts_date t =? d)%Z)) by (intro; reflexivity).
  rewrite date_range_day.
  replace ((start_date <=? d)%Z && (d <? start_date + Z.of_nat n)%Z)%bool with true.
  - rewrite !map_map. reflexivity.
  - symmetry. apply andb_true_iff. split; [apply Z.leb_le|apply Z.ltb_lt]; lia.
Qed.

(** X6.  When the selected appliances are distinct, every selected
    appliance has, on every day of the window, exactly 24 rows, with the
    hours 0, 1, ..., 23 in this order: no day of the window is partial. *)
Theorem appliance_day_hours reg_predict classes selected_devices days duration
    start_date (out : Output) (a : Py.str) (d : Z) :
  run_forecast reg_predict classes selected_devices days duration start_date
  = Py.Ok out ->
  NoDup selected_devices ->
  In a selected_devices ->
  (start_date <= d < start_date + days)%Z ->
  map hour (day_rows d (appliance_rows a (final out))) = map Z.of_nat (seq 0 24).
Proof.
  intros Hrun Hnd Hin Hd.
  destruct (run_forecast_inv _ _ _ _ _ _ _ Hrun) as [results [Hres [_ [Hfin _]]]].
  rewrite Hfin.
  destruct (forecast_devices_partition _ _ _ _ _ a _ Hres Hnd) as [_ H].
  destruct (H Hin) as [dev_id [_ ->]].
  replace (Z.to_nat (24 * days)) with (24 * Z.to_nat days)%nat by lia.
  apply device_frame_day_hours. lia.
Qed.

Lemma appliance_day_hours_witness :
  map hour (day_rows (Calendar.date_2022_09_24 + 1)
              (appliance_rows Dryer (final split_out)))
  = map Z.of_nat (seq 0 24).
Proof.
  apply (appliance_day_hours split_load sample_classes [Fridge; Dryer] 3 3
           Calendar.date_2022_09_24 split_out Dryer
           (Calendar.date_2022_09_24 + 1)).
  - exact split_run.
  - repeat constructor; simpl; intuition discriminate.
  - right. left. reflexivity.
  - vm_compute. split; [discriminate|reflexivity].
Defined.

(** *** The index of the aggregates *)

Lemma Sorted_map_fst {K A : Type} (R : K -> K -> Prop) (l : list (K * A)) :
  Sorted (fun p q => R (fst p) (fst q)) l -> Sorted R (map fst l).
Proof.
  induction 1 as [|p l Hs IH Hhd]; simpl; constructor; [exact IH|].
  destruct Hhd; simpl; constructor. assumption.
Qed.

Lemma groupby_sum_keys {K : Type} (kcmp : K -> K -> comparison) (key : Row -> K)
    (rows : list Row) :
  map fst (groupby_sum kcmp key rows)
  = map fst (Pd.groupby kcmp key acc0 acc_row rows).
Proof. unfold groupby_sum. rewrite map_map. reflexivity. Qed.

Lemma groupby_sum_Sorted {K : Type} (kcmp : K -> K -> comparison) (key : Row -> K)
    (rows : list Row) :
  (forall k k', kcmp k' k = CompOpp (kcmp k k')) ->
  Sorted (fun k k' => kcmp k k' <> Gt) (map fst (groupby_sum kcmp key rows)).
Proof.
  intro Hanti. rewrite groupby_sum_keys. apply Sorted_map_fst.
  unfold Pd.groupby. apply (Pd.sort_index_Sorted kcmp Hanti).
Qed.

Lemma sorted_days (n : nat) :
  forall (start_date : Z) (l : list Z),
    Sorted (fun k k' => (k ?= k')%Z <> Gt) l ->
    NoDup l ->
    (forall x, In x l <-> (start_date <= x < start_date + Z.of_nat n)%Z) ->
    l = map (fun k => (start_date + Z.of_nat k)%Z) (seq 0 n).
Proof.
  induction n as [|n IH]; intros start_date l Hs Hnd Hmem.
  - destruct l as [|x l]; [reflexivity|].
    exfalso. assert (H : In x (x :: l)) by (left; reflexivity).
    apply Hmem in H. lia.
  - destruct l as [|h t].
    + exfalso. assert (H : In start_date []) by (apply Hmem; lia). destruct H.
    + assert (Hss : StronglySorted (fun k k' => (k ?= k')%Z <> Gt) (h :: t)).
      { apply Sorted_StronglySorted; [|exact Hs].
        intros x y z Hxy Hyz. rewrite Z.compare_gt_iff in *. lia. }
      inversion Hss as [|? ? Hst Hall]; subst.
      rewrite Forall_forall in Hall.
      inversion Hnd as [|? ? Hnot Hnd']; subst.
      assert (Hh : h = start_date).
      { assert (H1 : (start_date <= h)%Z)
          by (apply Hmem; left; reflexivity).
        assert (H2 : In start_date (h :: t)) by (apply Hmem; lia).
        destruct H2 as [H2|H2]; [exact H2|].
        apply Hall in H2. rewrite Z.compare_gt_iff in H2. lia. }
      subst h. simpl. rewrite Z.add_0_r. f_equal.
      rewrite <- seq_shift, map_map.
      rewrite (IH (start_date + 1)%Z t).
      * apply map_ext. intro k. lia.
      * inversion Hs; assumption.
      * exact Hnd'.
      * intro x. split.
        -- intro Hx. assert (Hx' : In x (start_date :: t)) by (right; exact Hx).
           apply Hmem in Hx'.
           assert (x <> start_date) by (intro E; subst x; contradiction). lia.
        -- intro Hx. assert (Hx' : In x (start_date :: t)) by (apply Hmem; lia).
           destruct Hx' as [Hx'|Hx']; [lia|exact Hx'].
Qed.

Lemma daily_summary_keys reg_predict classes selected_devices days duration
    start_date (out : Output) :
  run_forecast reg_predict classes selected_devices days duration start_date
  = Py.Ok out ->
  map fst (daily_summary out)
  = map (fun k => (start_date + Z.of_nat k)%Z) (seq 0 (Z.to_nat days)).
Proof.
  intro Hrun.
  pose proof (daily_summary_days _ _ _ _ _ _ _ Hrun) as Hmem.
  destruct (run_forecast_inv _ _ _ _ _ _ _ Hrun)
    as [results [_ [_ [_ [_ [Hdaily _]]]]]].
  assert (Hdays : (0 < days)%Z).
  { destruct (final_has_row_any _ _ _ _ _ _ _ Hrun) as [r Hr].
    apply (final_dates _ _ _ _ _ _ _ Hrun) in Hr. lia. }
  apply sorted_days.
  - rewrite Hdaily. apply groupby_sum_Sorted. intros k k'. apply Z.compare_antisym.
  - rewrite Hdaily. apply (NoDup_groupby_sum _ _ Z.compare_eq_iff).
  - intro x. rewrite Hmem. rewrite Z2Nat.id by lia. reflexivity.
Qed.

(** X7.  The daily summary of a completed run has one entry per calendar
    day of the window and no other, in date order: its index is
    [start_date], [start_date + 1], ..., [start_date + days - 1]. *)
Theorem daily_summary_index reg_predict classes selected_devices days duration
    start_date (out : Output) :
  run_forecast reg_predict classes selected_devices days duration start_date
  = Py.Ok out ->
  map fst (daily_summary out)
  = map (fun k => (start_date + Z.of_nat k)%Z) (seq 0 (Z.to_nat days)).
Proof. apply daily_summary_keys. Qed.

Lemma daily_summary_index_witness :
  map fst (daily_summary split_out)
  = map (fun k => (Calendar.date_2022_09_24 + Z.of_nat k)%Z) (seq 0 (Z.to_nat 3)).
Proof.
  apply (daily_summary_index split_load sample_classes [Fridge; Dryer] 3 3
           Calendar.date_2022_09_24 split_out).
  exact split_run.
Defined.

Lemma str_compare_antisym (a b : Py.str) :
  Py.str_compare b a = CompOpp (Py.str_compare a b).
Proof.
  unfold Py.str_compare. apply list_compare_antisym.
  - intros x y. apply N.compare_eq_iff.
  - intros x y. apply N.compare_antisym.
Qed.

(** X8.  The summary of a completed run has one entry per appliance of the
    selection, without repetition, in the order of the names (code point by
    code point). *)
Theorem summary_index reg_predict classes selected_devices days duration
    start_date (out : Output) :
  run_forecast reg_predict classes selected_devices days duration start_date
  = Py.Ok out ->
  NoDup (map fst (summary out))
  /\ Sorted (fun a b => Py.str_compare a b <> Gt) (map fst (summary out))
  /\ (forall a, In a (map fst (summary out)) <-> In a selected_devices).
Proof.
  intro Hrun.
  destruct (run_forecast_inv _ _ _ _ _ _ _ Hrun) as [results [_ [_ [_ [Hsum _]]]]].
  split; [|split].
  - rewrite Hsum. apply (NoDup_groupby_sum _ _ Py.str_compare_eq).
  - rewrite Hsum. apply groupby_sum_Sorted. intros k k'. apply str_compare_antisym.
  - intro a. rewrite Hsum. split.
    + intro H. apply in_map_iff in H. destruct H as [[a' s] [E H]].
      simpl in E. subst a'.
      apply (In_groupby_sum _ _ Py.str_compare_eq) in H. destruct H as [Hne _].
      apply (Pd.group_rows_nonempty _ _ Py.str_compare_eq) in Hne.
      destruct Hne as [r [Hr <-]].
      destruct (final_rows _ _ _ _ _ _ _ _ Hrun Hr)
        as [device [dev_id [t [Hdev [_ [_ ->]]]]]]. simpl. exact Hdev.
    + intro Ha.
      assert (Hdays : (0 < days)%Z).
      { destruct (final_has_row_any _ _ _ _ _ _ _ Hrun) as [r Hr].
        apply (final_dates _ _ _ _ _ _ _ Hrun) in Hr. lia. }
      destruct (final_has_row _ _ _ _ _ _ _ Hrun a start_date Ha)
        as [r [Hr [Happ _]]]; [lia|].
      apply in_map_iff.
      exists (a, sums_of (Pd.group_rows Py.str_compare Appliance a (final out))).
      split; [reflexivity|].
      apply (In_groupby_sum _ _ Py.str_compare_eq). split; [|reflexivity].
      apply (Pd.group_rows_nonempty _ _ Py.str_compare_eq). exists r. auto.
Qed.

Lemma summary_index_witness :
  NoDup (map fst (summary split_out))
  /\ Sorted (fun a b => Py.str_compare a b <> Gt) (map fst (summary split_out))
  /\ (forall a, In a (map fst (summary split_out)) <-> In a [Fridge; Dryer]).
Proof.
  apply (summary_index split_load sample_classes [Fridge; Dryer] 3 3
           Calendar.date_2022_09_24 split_out).
  exact split_run.
Defined.

(** *** The recommendations *)

Lemma summary_entry_selected reg_predict classes selected_devices days duration
    start_date (out : Output) (a : Py.str) (s : Sums) :
  run_forecast reg_predict classes selected_devices days duration start_date
  = Py.Ok out ->
  In (a, s) (summary out) -> In a selected_devices.
Proof.
  intros Hrun H.
  destruct (run_forecast_inv _ _ _ _ _ _ _ Hrun) as [results [_ [_ [_ [Hsum _]]]]].
  rewrite Hsum in H.
  apply (In_groupby_sum _ _ Py.str_compare_eq) in H. destruct H as [Hne _].
  apply (Pd.group_rows_nonempty _ _ Py.str_compare_eq) in Hne.
  destruct Hne as [r [Hr <-]].
  destruct (final_rows _ _ _ _ _ _ _ _ Hrun Hr)
    as [device [dev_id [t [Hdev [_ [_ ->]]]]]]. simpl. exact Hdev.
Qed.

(** X9.  Whatever the predictions (NaN and infinite totals included), a
    completed run recommends days of the forecast window and names
    selected appliances as top contributors. *)
Theorem recommendations_in_range reg_predict classes selected_devices days
    duration start_date (out : Output) :
  run_forecast reg_predict classes selected_devices days duration start_date
  = Py.Ok out ->
  (start_date <= best_day out < start_date + days)%Z
  /\ (start_date <= worst_day out < start_date + days)%Z
  /\ In (top_cost_appliance out) selected_devices
  /\ In (top_co2_appliance out) selected_devices.
Proof.
  intro Hrun.
  destruct (run_forecast_inv _ _ _ _ _ _ _ Hrun)
    as [results [_ [_ [_ [_ [_ [Hbest [Hworst [Hcost Hco2]]]]]]]]].
  apply Pd.idxmin_position in Hbest. destruct Hbest as [i [v Hb]].
  apply Pd.idxmax_position in Hworst. destruct Hworst as [j [w Hw]].
  apply Pd.idxmax_position in Hcost. destruct Hcost as [k [x Hc]].
  apply Pd.idxmax_position in Hco2. destruct Hco2 as [l [y Hk]].
  apply nth_error_In, column_In in Hb, Hw, Hc, Hk.
  destruct Hb as [sb [Hb _]], Hw as [sw [Hw _]], Hc as [sc [Hc _]], Hk as [sk [Hk _]].
  repeat split.
  - apply (daily_summary_days _ _ _ _ _ _ _ Hrun (best_day out)).
    apply (in_map fst) in Hb. exact Hb.
  - apply (daily_summary_days _ _ _ _ _ _ _ Hrun (best_day out)).
    apply (in_map fst) in Hb. exact Hb.
  - apply (daily_summary_days _ _ _ _ _ _ _ Hrun (worst_day out)).
    apply (in_map fst) in Hw. exact Hw.
  - apply (daily_summary_days _ _ _ _ _ _ _ Hrun (worst_day out)).
    apply (in_map fst) in Hw. exact Hw.
  - apply (summary_entry_selected _ _ _ _ _ _ _ _ _ Hrun Hc).
  - apply (summary_entry_selected _ _ _ _ _ _ _ _ _ Hrun Hk).
Qed.

Lemma recommendations_in_range_witness :
  (Calendar.date_2022_09_24 <= best_day overflow_out < Calendar.date_2022_09_24 + 3)%Z
  /\ (Calendar.date_2022_09_24 <= worst_day overflow_out
      < Calendar.date_2022_09_24 + 3)%Z
  /\ In (top_cost_appliance overflow_out) [Fridge; Dryer]
  /\ In (top_co2_appliance overflow_out) [Fridge; Dryer].
Proof.
  apply (recommendations_in_range overflow_load sample_classes [Fridge; Dryer]
           3 3 Calendar.date_2022_09_24 overflow_out).
  exact overflow_run.
Defined.

Lemma key_at_position {A : Type} (l : list (Z * A)) (start_date : Z) (n j : nat)
    (d : Z) (s : A) :
  map fst l = map (fun k => (start_date + Z.of_nat k)%Z) (seq 0 n) ->
  nth_error l j = Some (d, s) ->
  d = (start_date + Z.of_nat j)%Z.
Proof.
  intros Hkeys Hnth. apply (map_nth_error fst) in Hnth. simpl in Hnth.
  rewrite Hkeys, nth_error_map, nth_error_seq in Hnth.
  destruct (j <? n)%nat; simpl in Hnth; [|discriminate].
  injection Hnth as <-. reflexivity.
Qed.

(** X10.  When no day's summed cost is NaN, ties go to the earliest day:
    every day before [best_day] has a summed cost strictly above that of
    [best_day], and every day before [worst_day] a summed cost strictly
    below that of [worst_day]. *)
Theorem best_worst_day_earliest reg_predict classes selected_devices days
    duration start_date (out : Output) :
  run_forecast reg_predict classes selected_devices days duration start_date
  = Py.Ok out ->
  Pd.no_nan (daily_costs out) = true ->
  exists sb sw,
    In (best_day out, sb) (daily_summary out)
    /\ In (worst_day out, sw) (daily_summary out)
    /\ forall d s, In (d, s) (daily_summary out) ->
         ((d < best_day out)%Z -> (sum_Cost_usd s <=? sum_Cost_usd sb) = false)
         /\ ((d < worst_day out)%Z -> (sum_Cost_usd sw <=? sum_Cost_usd s) = false).
Proof.
  intros Hrun Hnan. unfold daily_costs in Hnan.
  pose proof (daily_summary_keys _ _ _ _ _ _ _ Hrun) as Hkeys.
  destruct (run_forecast_inv _ _ _ _ _ _ _ Hrun)
    as [results [_ [_ [_ [_ [_ [Hbest [Hworst _]]]]]]]].
  rewrite <- (column_values sum_Cost_usd) in Hnan.
  destruct (Pd.idxmin_earliest _ _ Hnan Hbest) as [i [vb [Hi Hbefore]]].
  destruct (Pd.idxmax_earliest _ _ Hnan Hworst) as [j [vw [Hj Hbefore']]].
  unfold column in Hi, Hj. rewrite nth_error_map in Hi, Hj.
  destruct (nth_error (daily_summary out) i) as [[db sb]|] eqn:Ei; [|discriminate].
  destruct (nth_error (daily_summary out) j) as [[dw sw]|] eqn:Ej; [|discriminate].
  simpl in Hi, Hj. injection Hi as Hdb Hvb. injection Hj as Hdw Hvw.
  subst db dw vb vw.
  exists sb, sw.
  split; [eapply nth_error_In; exact Ei|].
  split; [eapply nth_error_In; exact Ej|].
  intros d s Hin. apply In_nth_error in Hin. destruct Hin as [k Hk].
  pose proof (key_at_position _ _ _ _ _ _ Hkeys Hk) as Hd.
  pose proof (key_at_position _ _ _ _ _ _ Hkeys Ei) as Hb.
  pose proof (key_at_position _ _ _ _ _ _ Hkeys Ej) as Hw.
  split; intro Hlt.
  - apply (Hbefore k d); [lia|].
    unfold column. rewrite nth_error_map, Hk. reflexivity.
  - apply (Hbefore' k d); [lia|].
    unfold column. rewrite nth_error_map, Hk. reflexivity.
Qed.

(** The fridge alone, predicted 100 W on the 24th and 50 W on the two
    days after it: the 25th and the 26th tie for the least cost. *)
Definition tie_load (h d wd n : Z) : float := if (d =? 24)%Z then 100 else 50.

Definition tie_out : Output :=
  Eval vm_compute in
    completed (run_forecast tie_load sample_classes [Fridge] 3 3
                 Calendar.date_2022_09_24).

Lemma tie_run :
  run_forecast tie_load sample_classes [Fridge] 3 3 Calendar.date_2022_09_24
  = Py.Ok tie_out.
Proof. vm_compute. reflexivity. Qed.

Lemma best_worst_day_earliest_witness :
  best_day tie_out = (Calendar.date_2022_09_24 + 1)%Z
  /\ exists sb sw,
       In (best_day tie_out, sb) (daily_summary tie_out)
       /\ In (worst_day tie_out, sw) (daily_summary tie_out)
       /\ forall d s, In (d, s) (daily_summary tie_out) ->
            ((d < best_day tie_out)%Z ->
             (sum_Cost_usd s <=? sum_Cost_usd sb) = false)
            /\ ((d < worst_day tie_out)%Z ->
                (sum_Cost_usd sw <=? sum_Cost_usd s) = false).
Proof.
  split; [reflexivity|].
  apply (best_worst_day_earliest tie_load sample_classes [Fridge] 3 3
           Calendar.date_2022_09_24 tie_out).
  - exact tie_run.
  - vm_compute. reflexivity.
Defined.

(** The conditions of [run_forecast_total] hold for the dryer and the
    fridge under [split_load]. *)
Lemma run_forecast_total_witness :
  exists out,
    run_forecast split_load sample_classes [Fridge; Dryer] 3 3
      Calendar.date_2022_09_24 = Py.Ok out.
Proof.
  apply (run_forecast_total split_load sample_classes [Fridge; Dryer] 3 3
           Calendar.date_2022_09_24).
  - discriminate.
  - intros device [<-|[<-|[]]]; [right; left|left]; reflexivity.
  - reflexivity.
  - intros results H. vm_compute in H. injection H as <-.
    vm_compute. repeat split.
Defined.

(** *** NaN predictions in the sums *)

Lemma is_nan_mul_l (x y : float) : is_nan x = true -> is_nan (x * y) = true.
Proof.
  rewrite !F64.is_nan_spec, mul_spec.
  destruct (Prim2SF x); try discriminate. reflexivity.
Qed.

Lemma is_nan_div_l (x y : float) : is_nan x = true -> is_nan (x / y) = true.
Proof.
  rewrite !F64.is_nan_spec, div_spec.
  destruct (Prim2SF x); try discriminate. reflexivity.
Qed.

Lemma fold_kahan_numeric (col : Row -> float) (rows : list Row) :
  (forall r, In r rows -> is_nan (Watts r) = true -> is_nan (col r) = true) ->
  forall acc,
    fold_left Pd.kahan_add (map col rows) acc
    = fold_left Pd.kahan_add
        (map col (filter (fun r => negb (is_nan (Watts r))) rows)) acc.
Proof.
  induction rows as [|r rows IH]; intros Hnan acc; simpl; [reflexivity|].
  assert (Hrest : forall r0, In r0 rows -> is_nan (Watts r0) = true ->
                             is_nan (col r0) = true)
    by (intros r0 H0; apply Hnan; right; exact H0).
  destruct (is_nan (Watts r)) eqn:E; simpl.
  - unfold Pd.kahan_add at 2. rewrite (Hnan r (or_introl eq_refl) E).
    apply IH. exact Hrest.
  - apply IH. exact Hrest.
Qed.

Lemma filter_numeric_none (rows : list Row) :
  (forall r, In r rows -> is_nan (Watts r) = true) ->
  filter (fun r => negb (is_nan (Watts r))) rows = [].
Proof.
  induction rows as [|r rows IH]; intro Hall; simpl; [reflexivity|].
  rewrite (Hall r (or_introl eq_refl)). simpl.
  apply IH. intros r0 H0. apply Hall. right. exact H0.
Qed.

(** The fridge is predicted 1000 W everywhere; the dryer 1000 W in the day
    hours and NaN at night. *)
Definition nan_night_load (h d wd n : Z) : float :=
  if ((n =? 0)%Z && ((22 <=? h)%Z || (h <? 6)%Z))%bool then nan else 1000.

Definition nan_night_out : Output :=
  Eval vm_compute in
    completed (run_forecast nan_night_load sample_classes [Fridge; Dryer] 3 3
                 Calendar.date_2022_09_24).

Lemma nan_night_run :
  run_forecast nan_night_load sample_classes [Fridge; Dryer] 3 3
    Calendar.date_2022_09_24
  = Py.Ok nan_night_out.
Proof. vm_compute. reflexivity. Qed.

(** X12.  A row whose predicted watts are NaN counts for nothing in the
    summary: the energy, emission and cost of such a row are NaN, and the
    three sums of an appliance are the group sums over its rows with a
    numeric prediction.  An appliance predicted NaN everywhere has the
    sums 0. *)
Theorem summary_ignores_nan_rows reg_predict classes selected_devices days
    duration start_date (out : Output) (a : Py.str) (s : Sums) :
  run_forecast reg_predict classes selected_devices days duration start_date
  = Py.Ok out ->
  In (a, s) (summary out) ->
  (forall r, In r (final out) -> is_nan (Watts r) = true ->
             is_nan (Energy_kWh r) = true
             /\ is_nan (CO2_kg r) = true
             /\ is_nan (Cost_usd r) = true)
  /\ s = sums_of (filter (fun r => negb (is_nan (Watts r)))
                    (appliance_rows a (final out)))
  /\ ((forall r, In r (appliance_rows a (final out)) -> is_nan (Watts r) = true) ->
      s = {| sum_Energy_kWh := 0; sum_CO2_kg := 0; sum_Cost_usd := 0 |}).
Proof.
  intros Hrun H.
  assert (Hprop : forall r, In r (final out) -> is_nan (Watts r) = true ->
            is_nan (Energy_kWh r) = true
            /\ is_nan (CO2_kg r) = true
            /\ is_nan (Cost_usd r) = true).
  { intros r Hr.
    destruct (final_rows _ _ _ _ _ _ _ _ Hrun Hr)
      as [device [dev_id [t [_ [_ [_ ->]]]]]]. simpl. intro Hw.
    assert (He : is_nan (reg_predict (ts_hour t) (Calendar.day_of_month (ts_date t))
                           (Calendar.weekday (ts_date t)) dev_id
                         * float_of_int duration / 1000) = true)
      by (apply is_nan_div_l, is_nan_mul_l; exact Hw).
    split; [exact He|]. split; apply is_nan_mul_l; exact He. }
  assert (Hsub : forall r, In r (appliance_rows a (final out)) -> In r (final out)).
  { intros r Hr. unfold appliance_rows in Hr. apply filter_In in Hr. tauto. }
  assert (Hs : s = sums_of (filter (fun r => negb (is_nan (Watts r)))
                              (appliance_rows a (final out)))).
  { destruct (run_forecast_inv _ _ _ _ _ _ _ Hrun) as [results [_ [_ [_ [Hsum _]]]]].
    rewrite Hsum in H.
    apply (In_groupby_sum _ _ Py.str_compare_eq) in H. destruct H as [_ ->].
    change (Pd.group_rows Py.str_compare Appliance a (final out))
      with (appliance_rows a (final out)).
    unfold sums_of, Pd.group_sum.
    rewrite (fold_kahan_numeric Energy_kWh), (fold_kahan_numeric CO2_kg),
      (fold_kahan_numeric Cost_usd); [reflexivity| | |];
      intros r Hr Hw; apply (Hprop r (Hsub r Hr) Hw). }
  split; [exact Hprop|]. split; [exact Hs|].
  intro Hall. rewrite Hs.
  replace (filter (fun r => negb (is_nan (Watts r))) (appliance_rows a (final out)))
    with (@nil Row); [reflexivity|].
  symmetry. apply filter_numeric_none. exact Hall.
Qed.

(** In the run [nan_night_out] the dryer has 24 rows predicted NaN and 48
    rows predicted 1000 W, of 3 kWh each: its summed energy is 144 kWh. *)
Lemma summary_ignores_nan_rows_witness :
  length (filter (fun r => is_nan (Watts r))
            (appliance_rows Dryer (final nan_night_out))) = 24%nat
  /\ exists s,
       In (Dryer, s) (summary nan_night_out)
       /\ sum_Energy_kWh s = 144
       /\ s = sums_of (filter (fun r => negb (is_nan (Watts r)))
                         (appliance_rows Dryer (final nan_night_out))).
Proof.
  split; [vm_compute; reflexivity|].
  exists (snd (nth 0 (summary nan_night_out) ([], sums_of []))).
  split; [vm_compute; left; reflexivity|]. split; [vm_compute; reflexivity|].
  apply (summary_ignores_nan_rows nan_night_load sample_classes [Fridge; Dryer]
           3 3 Calendar.date_2022_09_24 nan_night_out Dryer).
  - exact nan_night_run.
  - vm_compute. left. reflexivity.
Defined.

(** *** The default selection *)

(** [default=[all_devices[0]]], with [all_devices = list(le.classes_)]:
    the first class of the encoder; an encoder without classes has none. *)
Definition default_selection (classes : list Py.str) : Py.result (list Py.str) :=
  match classes with
  | [] => Py.Raise Py.IndexError
  | c :: _ => Py.Ok [c]
  end.

(** X20.  The default selection is accepted by the encoder, and a run on
    it has one appliance, the first class, with device id 0 in every row. *)
Theorem default_selection_rows reg_predict classes (selected_devices : list Py.str)
    days duration start_date :
  default_selection classes = Py.Ok selected_devices ->
  (exists results,
      forecast_devices reg_predict classes selected_devices
        (date_range start_date (Z.to_nat (24 * days))) duration = Py.Ok results)
  /\ forall out r,
       run_forecast reg_predict classes selected_devices days duration start_date
       = Py.Ok out ->
       In r (final out) ->
       node_encoded r = 0%Z /\ nth_error classes 0 = Some (Appliance r).
Proof.
  destruct classes as [|c rest]; simpl; [discriminate|].
  intros [= <-].
  assert (Hc : Py.str_eqb c c = true) by (apply Py.str_eqb_eq; reflexivity).
  split.
  - apply forecast_devices_total. intros device [<-|[]]. left. reflexivity.
  - intros out r Hrun Hr.
    destruct (final_rows _ _ _ _ _ _ _ _ Hrun Hr)
      as [device [dev_id [t [Hdev [Hle [_ ->]]]]]]. simpl.
    destruct Hdev as [<-|[]].
    unfold le_transform in Hle. simpl in Hle. rewrite Hc in Hle.
    injection Hle as <-. split; reflexivity.
Qed.

Lemma default_selection_rows_witness :
  (exists results,
      forecast_devices constant_1000 sample_classes [Dryer]
        (date_range Calendar.date_2022_09_24 (Z.to_nat (24 * 3))) 3 = Py.Ok results)
  /\ forall out r,
       run_forecast constant_1000 sample_classes [Dryer] 3 3
         Calendar.date_2022_09_24 = Py.Ok out ->
       In r (final out) ->
       node_encoded r = 0%Z /\ nth_error sample_classes 0 = Some (Appliance r).
Proof.
  apply (default_selection_rows constant_1000 sample_classes [Dryer] 3 3
           Calendar.date_2022_09_24).
  reflexivity.
Defined.

End App.

(** ** [Streamlit demo/main.py]: the label of an image *)

Module Demo.

#[local] Open Scope nat_scope.

Definition newline : N := 10%N.
Definition carriage_return : N := 13%N.

(** [open("labels.txt")] reads in text mode with universal newlines: the
    line endings "\r\n" and "\r" of the file are read as "\n". *)
Fixpoint universal_newlines (s : Py.str) : Py.str :=
  match s with
  | [] => []
  | c :: s' =>
      if (c =? carriage_return)%N
      then newline :: match s' with
                      | [] => []
                      | d :: s'' =>
                          if (d =? newline)%N then universal_newlines s''
                          else universal_newlines s'
                      end
      else c :: universal_newlines s'
  end.

(** [f.readlines()]: the text cut after every newline; each line keeps its
    newline, and a last line without one is kept as it is.  [cur] is the
    line being read, last character first. *)
Fixpoint lines_from (cur : Py.str) (s : Py.str) : list Py.str :=
  match s with
  | [] => match cur with [] => [] | _ :: _ => [rev cur] end
  | c :: s' =>
      if (c =? newline)%N then rev (c :: cur) :: lines_from [] s'
      else lines_from (c :: cur) s'
  end.

Definition readlines (s : Py.str) : list Py.str := lines_from [] s.

(** The lines [content] and the list [label], one entry [i[:-1]] per line. *)
Definition content (file : Py.str) : list Py.str :=
  readlines (universal_newlines file).

Definition label (file : Py.str) : list Py.str :=
  map (fun i => removelast i) (content file).

Section Prediction.

Variable Image : Type.

(** [model.predict] on the batch of one image: the class probabilities. *)
Variable predict : Image -> list float.

Definition model_prediction (test_image : Image) : Py.result nat :=
  Np.argmax (predict test_image).

(** [label[result_index]], the label shown by the page. *)
Definition reported_label (file : Py.str) (test_image : Image) : Py.result Py.str :=
  result_index <- model_prediction test_image ;;
  match nth_error (label file) result_index with
  | Some l => Py.Ok l
  | None => Py.Raise Py.IndexError
  end.

Definition prediction_message (file : Py.str) (test_image : Image) : Py.result Py.str :=
  l <- reported_label file test_image ;;
  Py.Ok (Py.of_string "Model is Predicting it's a " ++ l).

Lemma model_prediction_bound (test_image : Image) (i : nat) :
  model_prediction test_image = Py.Ok i -> i < length (predict test_image).
Proof. apply Np.arg_bound. Qed.

End Prediction.

(** *** Lines of a text *)

Lemma lines_from_concat (s : Py.str) :
  forall cur, concat (lines_from cur s) = rev cur ++ s.
Proof.
  induction s as [|c s IH]; intro cur; simpl.
  - destruct cur; simpl; rewrite ?app_nil_r; reflexivity.
  - destruct (c =? newline)%N; simpl.
    + rewrite IH. simpl. rewrite <- app_assoc. reflexivity.
    + rewrite IH. simpl. rewrite <- app_assoc. reflexivity.
Qed.

(** The lines of a text, put end to end, are the text. *)
Lemma readlines_concat (s : Py.str) : concat (readlines s) = s.
Proof. unfold readlines. rewrite lines_from_concat. reflexivity. Qed.

Lemma lines_from_nonempty (s : Py.str) :
  forall cur line, In line (lines_from cur s) -> line <> [].
Proof.
  induction s as [|c s IH]; intros cur line; simpl.
  - destruct cur as [|x cur]; [intros []|]. intros [<-|[]].
    simpl. intro E. apply app_eq_nil in E. destruct E; discriminate.
  - destruct (c =? newline)%N.
    + intros [<-|H]; [|eapply IH; eauto].
      simpl. intro E. apply app_eq_nil in E. destruct E; discriminate.
    + apply IH.
Qed.

(** No line is empty, so [i[:-1]] always removes a character of the line. *)
Lemma readlines_nonempty (s : Py.str) (line : Py.str) :
  In line (readlines s) -> line <> [].
Proof. apply lines_from_nonempty. Qed.

Lemma label_length (file : Py.str) : length (label file) = length (content file).
Proof. unfold label. apply length_map. Qed.

Lemma lines_from_terminated (s : Py.str) :
  forall cur,
    Forall (fun line => exists l, line = l ++ [newline])
           (lines_from cur (s ++ [newline])).
Proof.
  induction s as [|c s IH]; intro cur; simpl.
  - constructor; [|constructor]. exists (rev cur). reflexivity.
  - destruct (c =? newline)%N eqn:E.
    + constructor; [|apply IH]. apply N.eqb_eq in E. subst c.
      exists (rev cur). reflexivity.
    + apply IH.
Qed.

(** In a text that ends with a newline every line ends with one. *)
Lemma readlines_terminated (s : Py.str) :
  Forall (fun line => exists l, line = l ++ [newline]) (readlines (s ++ [newline])).
Proof. apply lines_from_terminated. Qed.

(** For a line that ends with a newline, the entry of [label] is the line
    without it. *)
Lemma label_of_terminated_line (file : Py.str) (i : nat) (l : Py.str) :
  nth_error (content file) i = Some (l ++ [newline]) ->
  nth_error (label file) i = Some l.
Proof.
  intro H. apply (map_nth_error (fun i => removelast i)) in H.
  rewrite removelast_last in H. exact H.
Qed.

(** *** Sample files and classifiers *)

Definition apple : Py.str := Py.of_string "apple".
Definition banana : Py.str := Py.of_string "banana".

(** Two labels, the last line without a newline. *)
Definition labels_unterminated : Py.str := apple ++ [newline] ++ banana.

(** Two labels, each line with its newline. *)
Definition labels_terminated : Py.str := apple ++ [newline] ++ banana ++ [newline].

(** A classifier with two classes that prefers the second one, and one
    with three classes that prefers the third. *)
Definition predict_second : unit -> list float := fun _ => [0.1; 0.9]%float.
Definition predict_third : unit -> list float := fun _ => [0.1; 0.2; 0.7]%float.

(** *** The reported label *)

(** C7 at a label file whose last line has no newline: the classifier
    selects class 1, line 1 of the file is "banana", and the page reports
    "banan". *)
Theorem reported_label_unterminated :
  model_prediction unit predict_second tt = Py.Ok 1
  /\ nth_error (content labels_unterminated) 1 = Some banana
  /\ reported_label unit predict_second labels_unterminated tt
     = Py.Ok (Py.of_string "banan").
Proof. repeat split. Qed.

(** C9.  The entry of [label] for a line of the file is the line without
    its last character; in the file [labels_unterminated], whose last line
    has no newline, the last label lacks the last character of its line. *)
Theorem label_drops_last_character :
  (forall file i line,
      nth_error (content file) i = Some line ->
      nth_error (label file) i = Some (removelast line)
      /\ exists c, line = removelast line ++ [c])
  /\ (exists file line c,
        last (content file) [] = line ++ [c]
        /\ c <> newline
        /\ last (label file) [] = line).
Proof.
  split.
  - intros file i line H. split.
    + apply (map_nth_error (fun i => removelast i)). exact H.
    + assert (Hne : line <> []).
      { apply (readlines_nonempty (universal_newlines file)).
        eapply nth_error_In. exact H. }
      exists (last line 0%N). apply app_removelast_last. exact Hne.
  - exists labels_unterminated, (Py.of_string "banan"), 97%N.
    repeat split. discriminate.
Qed.

Lemma label_drops_last_character_witness :
  nth_error (label labels_unterminated) 1 = Some (removelast banana)
  /\ exists c, banana = removelast banana ++ [c].
Proof.
  destruct label_drops_last_character as [H _].
  apply (H labels_unterminated 1 banana). reflexivity.
Defined.

(** C10.  The lookup succeeds when the class index is below the number of
    lines of the label file and raises [IndexError] otherwise; with the
    two-line file [labels_terminated] and a classifier of three classes that
    selects the third the lookup raises. *)
Theorem label_lookup_unguarded :
  (forall (Image : Type) (predict : Image -> list float) file test_image result_index,
      model_prediction Image predict test_image = Py.Ok result_index ->
      (result_index < length (content file) ->
       exists l, reported_label Image predict file test_image = Py.Ok l)
      /\ (length (content file) <= result_index ->
          reported_label Image predict file test_image = Py.Raise Py.IndexError))
  /\ (exists (Image : Type) (predict : Image -> list float) file test_image,
        length (content file) < length (predict test_image)
        /\ reported_label Image predict file test_image = Py.Raise Py.IndexError).
Proof.
  split.
  - intros Image predict file test_image result_index H.
    unfold reported_label. rewrite H. simpl. split.
    + intro Hlt. rewrite <- label_length in Hlt.
      destruct (nth_error (label file) result_index) as [l|] eqn:E.
      * exists l. reflexivity.
      * apply nth_error_None in E. lia.
    + intro Hge. rewrite <- label_length in Hge.
      apply nth_error_None in Hge. rewrite Hge. reflexivity.
  - exists unit, predict_third, labels_terminated, tt.
    split; [vm_compute; lia|reflexivity].
Qed.

Lemma label_lookup_unguarded_witness :
  (2 < length (content labels_terminated) ->
   exists l, reported_label unit predict_third labels_terminated tt = Py.Ok l)
  /\ (length (content labels_terminated) <= 2 ->
      reported_label unit predict_third labels_terminated tt
      = Py.Raise Py.IndexError).
Proof.
  destruct label_lookup_unguarded as [H _].
  apply (H unit predict_third labels_terminated tt 2). reflexivity.
Defined.

(** X19.  When the text read from the label file ends with a newline and
    the class index is in range, the page reports the text of the line at
    that index, without its newline. *)
Lemma reported_label_terminated (Image : Type) (predict : Image -> list float)
    (file s : Py.str) (test_image : Image) (result_index : nat) :
  universal_newlines file = s ++ [newline] ->
  model_prediction Image predict test_image = Py.Ok result_index ->
  result_index < length (content file) ->
  exists l,
    nth_error (content file) result_index = Some (l ++ [newline])
    /\ reported_label Image predict file test_image = Py.Ok l.
Proof.
  intros Hs Hidx Hlt.
  destruct (nth_error (content file) result_index) as [line|] eqn:E;
    [|apply nth_error_None in E; lia].
  assert (Hline : exists l, line = l ++ [newline]).
  { pose proof (readlines_terminated s) as Hall. rewrite Forall_forall in Hall.
    apply Hall. unfold content in E. rewrite Hs in E.
    eapply nth_error_In. exact E. }
  destruct Hline as [l ->]. exists l. split; [reflexivity|].
  unfold reported_label. rewrite Hidx. simpl.
  rewrite (label_of_terminated_line _ _ _ E). reflexivity.
Qed.

(** ** Further properties of the label demo *)

(** *** The class index *)

(** X13.  The classification raises [ValueError] exactly when the
    probability vector is empty; otherwise it answers an index below the
    number of classes, whatever the values (NaN included). *)
Theorem model_prediction_defined (Image : Type) (predict : Image -> list float)
    (test_image : Image) :
  (predict test_image = []
   /\ model_prediction Image predict test_image = Py.Raise Py.ValueError)
  \/ (exists i, model_prediction Image predict test_image = Py.Ok i
                /\ i < length (predict test_image)).
Proof.
  unfold model_prediction.
  destruct (predict test_image) as [|p ps] eqn:E.
  - left. split; reflexivity.
  - right. destruct (Np.arg_total (fun mp x => (x <=? mp)%float) (p :: ps))
      as [i Hi]; [discriminate|].
    exists i. split; [exact Hi|]. apply Np.arg_bound in Hi. exact Hi.
Qed.

(** X14.  When no probability is NaN, the class index is the position of
    a largest probability, and the first such position: every probability
    is at most the selected one, and every earlier one is strictly below
    it. *)
Theorem model_prediction_first_maximum (Image : Type) (predict : Image -> list float)
    (test_image : Image) (i : nat) :
  Pd.no_nan (predict test_image) = true ->
  model_prediction Image predict test_image = Py.Ok i ->
  exists v,
    nth_error (predict test_image) i = Some v
    /\ (forall x, In x (predict test_image) -> (x <=? v)%float = true)
    /\ (forall j x, j < i -> nth_error (predict test_image) j = Some x ->
                    (v <=? x)%float = false).
Proof.
  intros Hn H. unfold model_prediction in H.
  apply Pd.no_nan_Forall in Hn.
  destruct (Np.argmax_greatest _ _ Hn H) as [v [Hv Hmax]].
  destruct (Np.argmax_first _ _ Hn H) as [v' [Hv' Hfirst]].
  rewrite Hv in Hv'. injection Hv' as <-.
  exists v. split; [exact Hv|]. split; [exact Hmax|exact Hfirst].
Qed.

(** Three classes, the last two with the same, largest probability. *)
Definition predict_tie : unit -> list float := fun _ => [0.2; 0.4; 0.4]%float.

Lemma model_prediction_first_maximum_witness :
  exists v,
    nth_error (predict_tie tt) 1 = Some v
    /\ (forall x, In x (predict_tie tt) -> (x <=? v)%float = true)
    /\ (forall j x, j < 1 -> nth_error (predict_tie tt) j = Some x ->
                    (v <=? x)%float = false).
Proof.
  apply (model_prediction_first_maximum unit predict_tie tt 1); reflexivity.
Defined.

(** X15.  A NaN among the probabilities decides the class: the index is
    the position of the first NaN. *)
Theorem model_prediction_nan (Image : Type) (predict : Image -> list float)
    (test_image : Image) (pre : list float) (x : float) (post : list float) :
  predict test_image = pre ++ x :: post ->
  Pd.no_nan pre = true ->
  is_nan x = true ->
  model_prediction Image predict test_image = Py.Ok (length pre).
Proof.
  intros Hp Hpre Hx. unfold model_prediction. rewrite Hp.
  apply Np.argmax_nan; [apply Pd.no_nan_Forall; exact Hpre|exact Hx].
Qed.

Lemma model_prediction_nan_witness :
  model_prediction unit (fun _ => [0.9; nan; 0.1]%float) tt = Py.Ok 1.
Proof.
  apply (model_prediction_nan unit (fun _ => [0.9; nan; 0.1]%float) tt
           [0.9%float] nan [0.1%float]); reflexivity.
Defined.

(** *** The characters of a label *)

Lemma In_removelast {A : Type} (x : A) (l : list A) :
  In x (removelast l) -> In x l.
Proof.
  induction l as [|a l IH]; simpl; [tauto|].
  destruct l as [|b l]; [intros []|].
  intros [H|H]; [left; exact H|right; apply IH; exact H].
Qed.

Lemma lines_from_inner (s : Py.str) :
  forall cur line,
    ~ In newline cur ->
    In line (lines_from cur s) -> ~ In newline (removelast line).
Proof.
  induction s as [|c s IH]; intros cur line Hcur; simpl.
  - destruct cur as [|x cur]; [intros []|]. intros [<-|[]] Hin.
    apply In_removelast, in_rev in Hin. exact (Hcur Hin).
  - destruct (c =? newline)%N eqn:E.
    + intros [<-|H].
      * simpl. rewrite removelast_last. intro Hin. apply in_rev in Hin.
        exact (Hcur Hin).
      * apply (IH [] line); [intros []|exact H].
    + apply IH. apply N.eqb_neq in E. intros [H|H]; [congruence|exact (Hcur H)].
Qed.

Lemma universal_newlines_no_cr (n : nat) :
  forall s, length s <= n -> ~ In carriage_return (universal_newlines s).
Proof.
  induction n as [|n IH]; intros s Hlen.
  - destruct s; [intros []|simpl in Hlen; lia].
  - destruct s as [|c s]; [intros []|]. simpl in Hlen. simpl.
    destruct (c =? carriage_return)%N eqn:E.
    + intros [H|H]; [discriminate|].
      destruct s as [|d s]; [destruct H|].
      destruct (d =? newline)%N.
      * apply (IH s); [simpl in Hlen; lia|exact H].
      * apply (IH (d :: s)); [lia|exact H].
    + apply N.eqb_neq in E. intros [H|H]; [congruence|].
      apply (IH s); [lia|exact H].
Qed.

(** X16.  No entry of [label] contains a newline or a carriage return,
    whatever the file: the reported label is a single line. *)
Theorem label_single_line (file : Py.str) (l : Py.str) :
  In l (label file) -> ~ In newline l /\ ~ In carriage_return l.
Proof.
  unfold label. intro H. apply in_map_iff in H. destruct H as [line [<- Hline]].
  split.
  - apply (lines_from_inner (universal_newlines file) [] line); [intros []|exact Hline].
  - intro Hin. apply In_removelast in Hin.
    apply (universal_newlines_no_cr (length file) file (le_n _)).
    rewrite <- (readlines_concat (universal_newlines file)).
    apply in_concat. exists line. split; [exact Hline|exact Hin].
Qed.

Lemma label_single_line_witness :
  ~ In newline apple /\ ~ In carriage_return apple.
Proof.
  apply (label_single_line
           (apple ++ [carriage_return; newline] ++ banana ++ [carriage_return])
           apple).
  vm_compute. left. reflexivity.
Defined.

(** *** Label files that end with a newline *)

(** X17.  When the text read from the label file ends with a newline, no
    character of a label is lost: the labels, each followed by a newline,
    put end to end give the text back. *)
Theorem label_round_trip (file s : Py.str) :
  universal_newlines file = s ++ [newline] ->
  concat (map (fun l => l ++ [newline]) (label file)) = universal_newlines file.
Proof.
  intro Hs. unfold label. rewrite map_map.
  rewrite <- (readlines_concat (universal_newlines file)).
  f_equal. unfold content. rewrite Hs.
  pose proof (readlines_terminated s) as Hall.
  induction (readlines (s ++ [newline])) as [|line lines IH]; simpl; [reflexivity|].
  inversion Hall as [|? ? [l ->] Hall']; subst.
  rewrite removelast_last. rewrite (IH Hall'). reflexivity.
Qed.

Lemma label_round_trip_witness :
  concat (map (fun l => l ++ [newline]) (label labels_terminated))
  = universal_newlines labels_terminated.
Proof.
  apply (label_round_trip labels_terminated (apple ++ [newline] ++ banana)).
  reflexivity.
Defined.

(** A text with the line endings of Windows: every newline preceded by a
    carriage return. *)
Definition crlf (s : Py.str) : Py.str :=
  flat_map (fun c => if (c =? newline)%N then [carriage_return; newline] else [c]) s.

Lemma universal_newlines_crlf (s : Py.str) :
  ~ In carriage_return s -> universal_newlines (crlf s) = s.
Proof.
  induction s as [|c s IH]; intro Hn; simpl; [reflexivity|].
  assert (Hs : ~ In carriage_return s) by (intro H; apply Hn; right; exact H).
  assert (Hc : c <> carriage_return) by (intro H; apply Hn; left; congruence).
  destruct (c =? newline)%N eqn:E; simpl.
  - apply N.eqb_eq in E. subst c. rewrite (IH Hs). reflexivity.
  - apply N.eqb_neq in Hc. rewrite Hc. rewrite (IH Hs). reflexivity.
Qed.

Lemma universal_newlines_id (s : Py.str) :
  ~ In carriage_return s -> universal_newlines s = s.
Proof.
  induction s as [|c s IH]; intro Hn; simpl; [reflexivity|].
  assert (Hs : ~ In carriage_return s) by (intro H; apply Hn; right; exact H).
  assert (Hc : c <> carriage_return) by (intro H; apply Hn; left; congruence).
  apply N.eqb_neq in Hc. rewrite Hc. rewrite (IH Hs). reflexivity.
Qed.

(** X18.  A label file saved with the line endings of Windows gives the
    same labels as the same text saved with plain newlines. *)
Theorem label_crlf (s : Py.str) :
  ~ In carriage_return s -> label (crlf s) = label s.
Proof.
  intro Hn. unfold label, content.
  rewrite (universal_newlines_crlf s Hn), (universal_newlines_id s Hn).
  reflexivity.
Qed.

Lemma label_crlf_witness : label (crlf labels_terminated) = label labels_terminated.
Proof.
  apply (label_crlf labels_terminated).
  intro H. vm_compute in H. intuition discriminate.
Defined.

Lemma reported_label_terminated_witness :
  exists l,
    nth_error (content labels_terminated) 1 = Some (l ++ [newline])
    /\ reported_label unit predict_second labels_terminated tt = Py.Ok l.
Proof.
  apply (reported_label_terminated unit predict_second labels_terminated
           (apple ++ [newline] ++ banana) tt 1).
  - reflexivity.
  - reflexivity.
  - vm_compute. lia.
Defined.

End Demo.
